(** * FameEX REST adapter: signing and response classification

    A shallow embedding of [trade/api/fameex_api.js]: the request signer
    ([getSignature]), the request builder of private endpoints
    ([protectedRequest]), the response classifier ([handleResponse]) and the
    configuration call ([setConfig]), with the part of JavaScript they rely
    on: dynamic values, property reads with and without optional chaining,
    string conversion, [JSON.stringify], exceptions and [try]/[catch]. *)

From Stdlib Require Import ZArith String Ascii List Lia Bool DecimalString.
Import ListNotations.

Set Warnings "-register-all".

Local Open Scope string_scope.
Local Open Scope Z_scope.

(* ================================================================== *)
(** ** JavaScript values *)
(* ================================================================== *)

(** Values as the adapter meets them: what [JSON.parse] produces for a body,
    the response object of the HTTP client, and the error objects it rejects
    with.  Numbers are the integral ones (status codes, error codes,
    millisecond timestamps), in the range where JavaScript prints an integer
    in plain decimal; a string is the sequence of its bytes; an object keeps
    its own properties in insertion order, which is the order
    [JSON.stringify] prints them in.  [Builtin] is a function found on
    [Object.prototype]: the only place the source can meet one is the
    computed lookup [httpErrorCodeDescriptions[code]]. *)
Inductive Value : Type :=
| Undefined
| Null
| Bool (b : bool)
| Num (n : Z)
| Str (s : string)
| Arr (items : list Value) (props : list (string * Value))
| Obj (props : list (string * Value))
| Err (name message : string) (props : list (string * Value))
| Builtin (name : string).

(** A thrown exception: every exception the modelled code can raise is a
    built-in error with a name and a message. *)
Record Exn : Type := mkExn { exn_name : string; exn_message : string }.

Definition TypeError (msg : string) : Exn := mkExn "TypeError" msg.

(** The error object a [catch] handler receives for a thrown [Exn]. *)
Definition exn_value (e : Exn) : Value := Err (exn_name e) (exn_message e) [].

(** Result of evaluating an expression that may throw. *)
Inductive Completion (A : Type) : Type :=
| Normal (a : A)
| Throw (e : Exn).
Arguments Normal {A} a.
Arguments Throw {A} e.

Definition cbind {A B} (c : Completion A) (k : A -> Completion B) : Completion B :=
  match c with
  | Normal a => k a
  | Throw e => Throw e
  end.

(** *** Own properties *)

Fixpoint lookup (k : string) (ps : list (string * Value)) : option Value :=
  match ps with
  | [] => None
  | (k', v) :: rest => if String.eqb k k' then Some v else lookup k rest
  end.

Definition has_key (k : string) (ps : list (string * Value)) : bool :=
  match lookup k ps with Some _ => true | None => false end.

(** [o.k = v] on the property list: an existing key keeps its place, a new
    key goes last. *)
Fixpoint store (k : string) (v : Value) (ps : list (string * Value))
  : list (string * Value) :=
  match ps with
  | [] => [(k, v)]
  | (k', v') :: rest =>
      if String.eqb k k' then (k, v) :: rest else (k', v') :: store k v rest
  end.

Definition from_option (o : option Value) : Value :=
  match o with Some v => v | None => Undefined end.

(** [v.k] for a [v] that is neither [undefined] nor [null].  The names the
    source reads ([status], [statusText], [response], [data], [code], [msg])
    are neither array indices nor inherited from a built-in prototype, so the
    own properties decide; an error object also answers [name] and
    [message]. *)
Definition field (v : Value) (k : string) : Value :=
  match v with
  | Arr _ ps | Obj ps => from_option (lookup k ps)
  | Err n m ps =>
      if String.eqb k "name" then Str n
      else if String.eqb k "message" then Str m
      else from_option (lookup k ps)
  | _ => Undefined
  end.

Definition nullish (v : Value) : bool :=
  match v with Undefined | Null => true | _ => false end.

Definition nullish_name (v : Value) : string :=
  match v with Null => "null" | _ => "undefined" end.

(** [v.k]: a property read, which throws on [undefined] and [null]. *)
Definition get (v : Value) (k : string) : Completion Value :=
  if nullish v
  then Throw (TypeError ("Cannot read properties of " ++ nullish_name v
                           ++ " (reading '" ++ k ++ "')"))
  else Normal (field v k).

(** [v?.k]: optional chaining. *)
Definition get_opt (v : Value) (k : string) : Value :=
  if nullish v then Undefined else field v k.

(** [a ?? b] *)
Definition coalesce (a b : Value) : Value := if nullish a then b else a.

(** [v.k = x] in sloppy mode, for a [k] that is not an array index: throws on
    [undefined] and [null], is silently dropped on the other primitives.  The
    source assigns only where [typeof] says object. *)
Definition assign (v : Value) (k : string) (x : Value) : Completion Value :=
  match v with
  | Undefined | Null =>
      Throw (TypeError ("Cannot set properties of " ++ nullish_name v
                          ++ " (setting '" ++ k ++ "')"))
  | Arr items ps => Normal (Arr items (store k x ps))
  | Obj ps => Normal (Obj (store k x ps))
  | Err n m ps => Normal (Err n m (store k x ps))
  | _ => Normal v
  end.

(** [typeof v] *)
Definition typeof (v : Value) : string :=
  match v with
  | Undefined => "undefined"
  | Null | Arr _ _ | Obj _ | Err _ _ _ => "object"
  | Bool _ => "boolean"
  | Num _ => "number"
  | Str _ => "string"
  | Builtin _ => "function"
  end.

(** Truthiness, as [if (v)], [v ? a : b] and [v || d] test it. *)
Definition truthy (v : Value) : bool :=
  match v with
  | Undefined | Null => false
  | Bool b => b
  | Num n => negb (n =? 0)
  | Str s => negb (String.eqb s "")
  | _ => true
  end.

(** [v === n] and [v === s] against a number and a string literal. *)
Definition is_num (v : Value) (n : Z) : bool :=
  match v with Num m => m =? n | _ => false end.

Definition is_str (v : Value) (s : string) : bool :=
  match v with Str t => String.eqb t s | _ => false end.

(** *** Conversion to string *)

(** Decimal rendering of an integral number. *)
Definition decimal (n : Z) : string := NilZero.string_of_int (Z.to_int n).

Definition cannot_convert : Exn :=
  TypeError "Cannot convert object to primitive value".

(** [String(v)], also the conversion of template literals, of [+] with a
    string operand and of computed property keys.  An object converts through
    its [toString] method: a plain object gives ["[object Object]"], an array
    joins its elements, an error gives [name: message]; an own property named
    [toString] (never a function in parsed JSON) hides the inherited method,
    and the conversion throws. *)
Fixpoint ToString (v : Value) : Completion string :=
  match v with
  | Undefined => Normal "undefined"
  | Null => Normal "null"
  | Bool true => Normal "true"
  | Bool false => Normal "false"
  | Num n => Normal (decimal n)
  | Str s => Normal s
  | Arr items ps =>
      if has_key "toString" ps then Throw cannot_convert
      else if has_key "join" ps then Normal "[object Array]"
      else
        (fix join (xs : list Value) : Completion string :=
           match xs with
           | [] => Normal ""
           | x :: rest =>
               cbind (if nullish x then Normal "" else ToString x) (fun s =>
               match rest with
               | [] => Normal s
               | _ => cbind (join rest) (fun r => Normal (s ++ "," ++ r))
               end)
           end) items
  | Obj ps =>
      if has_key "toString" ps then Throw cannot_convert
      else Normal "[object Object]"
  | Err n m ps =>
      if has_key "toString" ps then Throw cannot_convert
      else if String.eqb n "" then Normal m
      else if String.eqb m "" then Normal n
      else Normal (n ++ ": " ++ m)
  | Builtin f => Normal ("function " ++ f ++ "() { [native code] }")
  end.

(** [String(e)] of a caught exception never throws. *)
Definition exn_to_string (e : Exn) : string :=
  if String.eqb (exn_name e) "" then exn_message e
  else if String.eqb (exn_message e) "" then exn_name e
  else exn_name e ++ ": " ++ exn_message e.

(** *** [JSON.stringify] *)

Definition hex_digit (n : nat) : ascii :=
  nth n ["0"; "1"; "2"; "3"; "4"; "5"; "6"; "7";
         "8"; "9"; "a"; "b"; "c"; "d"; "e"; "f"]%char "0"%char.

Definition char (n : nat) : string := String (ascii_of_nat n) "".

Definition backslash : string := char 92.
Definition dquote : string := char 34.

(** The escape of one character inside a JSON string literal. *)
Definition json_escape (c : ascii) : string :=
  let n := nat_of_ascii c in
  if Nat.eqb n 34 then backslash ++ dquote
  else if Nat.eqb n 92 then backslash ++ backslash
  else if Nat.eqb n 8 then backslash ++ "b"
  else if Nat.eqb n 12 then backslash ++ "f"
  else if Nat.eqb n 10 then backslash ++ "n"
  else if Nat.eqb n 13 then backslash ++ "r"
  else if Nat.eqb n 9 then backslash ++ "t"
  else if Nat.ltb n 32
       then backslash ++ "u00"
            ++ String (hex_digit (Nat.div n 16)) (String (hex_digit (Nat.modulo n 16)) "")
  else String c "".

Fixpoint json_escape_all (s : string) : string :=
  match s with
  | EmptyString => ""
  | String c rest => json_escape c ++ json_escape_all rest
  end.

Definition json_quote (s : string) : string :=
  dquote ++ json_escape_all s ++ dquote.

(** [JSON.stringify(v)]; [None] is the [undefined] it returns for
    [undefined] and for functions.  Such members are left out of an object
    and printed as [null] in an array; the named properties of an array and
    the [name] and [message] of an error are not enumerated. *)
Fixpoint JSON_stringify (v : Value) : option string :=
  match v with
  | Undefined | Builtin _ => None
  | Null => Some "null"
  | Bool true => Some "true"
  | Bool false => Some "false"
  | Num n => Some (decimal n)
  | Str s => Some (json_quote s)
  | Arr items _ =>
      Some ("[" ++ String.concat ","
              ((fix elements (xs : list Value) : list string :=
                  match xs with
                  | [] => []
                  | x :: rest =>
                      match JSON_stringify x with
                      | Some s => s
                      | None => "null"
                      end :: elements rest
                  end) items) ++ "]")
  | Obj ps | Err _ _ ps =>
      Some ("{" ++ String.concat ","
              ((fix members (ms : list (string * Value)) : list string :=
                  match ms with
                  | [] => []
                  | (k, x) :: rest =>
                      match JSON_stringify x with
                      | Some s => (json_quote k ++ ":" ++ s) :: members rest
                      | None => members rest
                      end
                  end) ps) ++ "}")
  end.

(** A value interpolated in a template literal after [JSON.stringify]. *)
Definition json_text (v : Value) : string :=
  match JSON_stringify v with Some s => s | None => "undefined" end.

(** [s.includes(t)] *)
Fixpoint includes (s t : string) : bool :=
  if String.prefix t s then true
  else match s with
       | EmptyString => false
       | String _ rest => includes rest t
       end.

(* ================================================================== *)
(** ** Effects of the adapter *)
(* ================================================================== *)

(** What a run of the classifier does to the outside, in order. *)
Inductive Event : Type :=
| ConsoleLog (v : Value)      (* console.log(v) *)
| LogLog (msg : string)       (* log.log(msg) *)
| LogWarn (msg : string)      (* log.warn(msg) *)
| Resolve (v : Value)         (* resolve(v) *)
| Reject (reason : string).   (* reject(reason) *)

(** The store a run works on: the body object [data] refers to, which the
    classifier mutates in place, and the events so far. *)
Record Store : Type := mkStore { body : Value; trace : list Event }.

(** Computations that read and write the store and may throw; what was
    written before a throw stays written. *)
Definition M (A : Type) : Type := Store -> Store * Completion A.

Definition ret {A} (a : A) : M A := fun s => (s, Normal a).

Definition bind {A B} (m : M A) (k : A -> M B) : M B :=
  fun s =>
    match m s with
    | (s', Normal a) => k a s'
    | (s', Throw e) => (s', Throw e)
    end.

Definition lift {A} (c : Completion A) : M A := fun s => (s, c).

Definition try_catch (m : M unit) (handler : Exn -> M unit) : M unit :=
  fun s =>
    match m s with
    | (s', Normal a) => (s', Normal a)
    | (s', Throw e) => handler e s'
    end.

Definition emit (ev : Event) : M unit :=
  fun s => (mkStore (body s) (trace s ++ [ev]), Normal tt).

Definition read_body : M Value := fun s => (s, Normal (body s)).

Definition write_body (v : Value) : M unit :=
  fun s => (mkStore v (trace s), Normal tt).

Declare Scope js_scope.
Delimit Scope js_scope with js.
Notation "x <- c ;; k" := (bind c (fun x => k))
  (at level 61, c at next level, right associativity) : js_scope.
Notation "c ;; k" := (bind c (fun _ => k))
  (at level 61, right associativity) : js_scope.

(** *** Module state *)

(** The object held in [log]: whether it has a callable [log] and a callable
    [warn].  The [{}] the module starts with has neither. *)
Record Logger : Type :=
  mkLogger { logger_name : string; has_log : bool; has_warn : bool }.

Record Credentials : Type :=
  mkCredentials { apiKey : Value; secret_key : Value; tradePwd : Value }.

(** The three [let] variables of the module closure. *)
Record State : Type :=
  mkState { WEB_BASE : Value; config : Credentials; log : Logger }.

Definition initial_state : State :=
  {| WEB_BASE := Str "https://api.fameex.com";
     config := {| apiKey := Str ""; secret_key := Str ""; tradePwd := Str "" |};
     log := {| logger_name := "{}"; has_log := false; has_warn := false |} |}.

Definition log_log (st : State) (msg : string) : M unit :=
  if has_log (log st) then emit (LogLog msg)
  else lift (Throw (TypeError "log.log is not a function")).

Definition log_warn (st : State) (msg : string) : M unit :=
  if has_warn (log st) then emit (LogWarn msg)
  else lift (Throw (TypeError "log.warn is not a function")).

(** *** Constants of the module *)

Definition httpErrorCodeDescriptions : list (string * Value) :=
  [ ("112002", Str "API single key traffic exceeds limit");
    ("112005", Str "API request frequency exceeded");
    ("112007", Str "API-Key creation failed");
    ("112008", Str "API-Key remark name already exists");
    ("112009", Str "The number of API-Key creation exceeds the limit (a single user can create up to 5 APIs)");
    ("112010", Str "API-Key is invalid (the time limit for a single Key is 60 natural days)");
    ("112011", Str "API request IP access is restricted (the bound IP is inconsistent with the request IP)");
    ("112015", Str "Signature error");
    ("112020", Str "Wrong signature");
    ("112021", Str "Wrong signature version");
    ("112022", Str "Signature timestamp error");
    ("112047", Str "The spot API interface is temporarily inaccessible");
    ("112048", Str "The futures API interface is temporarily inaccessible");
    ("230030", Str "Please operate after KYC certification") ].

Definition statusCodes_ok : Z := 200.
Definition statusCodes_zero : string := "0".

Definition versioning_v1 : string := "/v1".
Definition versioning_v2 : string := "/v2".

(** What an object literal inherits from [Object.prototype]. *)
Definition object_prototype (k : string) : Value :=
  if String.eqb k "constructor" then Builtin "Object"
  else if String.eqb k "__proto__" then Obj []
  else if existsb (String.eqb k)
            [ "__defineGetter__"; "__defineSetter__"; "hasOwnProperty";
              "__lookupGetter__"; "__lookupSetter__"; "isPrototypeOf";
              "propertyIsEnumerable"; "toString"; "valueOf"; "toLocaleString" ]
       then Builtin k
  else Undefined.

(** [httpErrorCodeDescriptions[key]]: the key is converted to a string, the
    own entries are searched, then the prototype. *)
Definition description_of (key : Value) : Completion Value :=
  cbind (ToString key) (fun k =>
  Normal match lookup k httpErrorCodeDescriptions with
         | Some v => v
         | None => object_prototype k
         end).

(* ================================================================== *)
(** ** The response classifier *)
(* ================================================================== *)

Section Classifier.

(** [trimAny] of [helpers/utils] is not part of the adapter: the classifier
    is modelled over any such helper that returns a string. *)
Variable trimAny : Value -> string -> string.

Variable st : State.

Local Open Scope js_scope.

(** [responseOrError?.status ?? responseOrError?.response?.status] *)
Definition httpCode_of (responseOrError : Value) : Value :=
  coalesce (get_opt responseOrError "status")
           (get_opt (get_opt responseOrError "response") "status").

(** [responseOrError?.statusText ?? responseOrError?.response?.statusText] *)
Definition httpMessage_of (responseOrError : Value) : Value :=
  coalesce (get_opt responseOrError "statusText")
           (get_opt (get_opt responseOrError "response") "statusText").

(** [responseOrError?.data ?? responseOrError?.response?.data] *)
Definition data_of (responseOrError : Value) : Value :=
  coalesce (get_opt responseOrError "data")
           (get_opt (get_opt responseOrError "response") "data").

(** [httpCode === statusCodes.ok &&
     (data.code === statusCodes.ok || data.code === statusCodes.zero)]:
    [data.code] is read only when the first conjunct holds. *)
Definition success_of (httpCode data : Value) : Completion bool :=
  if is_num httpCode statusCodes_ok
  then cbind (get data "code") (fun c1 =>
       if is_num c1 statusCodes_ok then Normal true
       else cbind (get data "code") (fun c2 =>
            Normal (is_str c2 statusCodes_zero)))
  else Normal false.

(** [error.code]: [data?.code ?? 'No error code'] *)
Definition error_code (data : Value) : Value :=
  coalesce (get_opt data "code") (Str "No error code").

(** [error.msg]:
    [httpErrorCodeDescriptions[data?.code] ?? data?.msg ?? 'Unknown error'] *)
Definition error_msg (data : Value) : Completion Value :=
  cbind (description_of (get_opt data "code")) (fun described =>
  Normal (coalesce (coalesce described (get_opt data "msg"))
                   (Str "Unknown error"))).

(** [queryString || '{ No parameters }'] *)
Definition reqParameters_of (queryString : string) : string :=
  if String.eqb queryString "" then "{ No parameters }" else queryString.

(** [`[${error.code}] ${trimAny(error.msg, ' .')}`] *)
Definition fameexErrorInfo_of (code msg : Value) : Completion string :=
  cbind (ToString code) (fun c =>
  Normal ("[" ++ c ++ "] " ++ trimAny msg " .")).

(** [httpCode ? `${httpCode} ${httpMessage}, ${fameexErrorInfo}`
              : String(responseOrError)] *)
Definition errorMessage_of (responseOrError httpCode httpMessage : Value)
           (fameexErrorInfo : string) : Completion string :=
  if truthy httpCode
  then cbind (ToString httpCode) (fun c =>
       cbind (ToString httpMessage) (fun m =>
       Normal (c ++ " " ++ m ++ ", " ++ fameexErrorInfo)))
  else ToString responseOrError.

(** The body of the [try] block. *)
Definition try_block (responseOrError httpCode httpMessage code msg : Value)
           (success : bool) (reqParameters url : string) : M unit :=
  if success then
    data <- read_body ;;
    payload <- lift (get data "data") ;;
    emit (Resolve payload)
  else
    fameexErrorInfo <- lift (fameexErrorInfo_of code msg) ;;
    errorMessage <- lift (errorMessage_of responseOrError httpCode httpMessage
                                          fameexErrorInfo) ;;
    data <- read_body ;;
    (if String.eqb (typeof data) "object"
     then data' <- lift (assign data "fameexErrorInfo" (Str fameexErrorInfo)) ;;
          write_body data'
     else ret tt) ;;
    if is_num httpCode statusCodes_ok then
      m <- lift (ToString msg) ;;
      log_log st ("FameEX processed a request to " ++ url ++ " with data "
                  ++ reqParameters ++ ", but with error: " ++ m
                  ++ ". Resolving…") ;;
      annotated <- read_body ;;
      emit (Resolve annotated)
    else
      log_warn st ("Request to " ++ url ++ " with data " ++ reqParameters
                   ++ " failed. details: " ++ errorMessage ++ ". Rejecting…") ;;
      emit (Reject errorMessage).

(** The [catch] block; [error] is the caught exception. *)
Definition catch_block (reqParameters url : string) (error : Exn) : M unit :=
  data <- read_body ;;
  log_warn st ("Error while processing response of request to " ++ url
               ++ " with data " ++ reqParameters ++ ": " ++ exn_to_string error
               ++ ". Data object I've got: " ++ json_text data ++ ".") ;;
  data <- read_body ;;
  emit (Reject ("Unable to process data: " ++ json_text data ++ ". "
                ++ exn_to_string error)).

(** [handleResponse(responseOrError, resolve, reject, queryString, url)],
    run on the store that holds the body. *)
Definition handleResponse_body (responseOrError : Value)
           (queryString url : string) : M unit :=
  let httpCode := httpCode_of responseOrError in
  let httpMessage := httpMessage_of responseOrError in
  let data := data_of responseOrError in
  success <- lift (success_of httpCode data) ;;
  emit (ConsoleLog (Obj [("data", data)])) ;;
  let code := error_code data in
  msg <- lift (error_msg data) ;;
  let reqParameters := reqParameters_of queryString in
  try_catch
    (try_block responseOrError httpCode httpMessage code msg
              success reqParameters url)
    (catch_block reqParameters url).

(** A call of [handleResponse]: the store starts with the body the outcome
    carries and no event. *)
Definition handleResponse (responseOrError : Value)
           (queryString url : string) : Store * Completion unit :=
  handleResponse_body responseOrError queryString url
    (mkStore (data_of responseOrError) []).

End Classifier.

(** Modelled from the spec: [trimAny] of [helpers/utils] is not among the
    sources.  Section 4.2, step 5a, has it trim "stray spaces/periods from the
    message": the characters of [chars] are dropped from both ends.  The spec
    is silent on a message that is not a string; the model answers the empty
    string there. *)
Module Utils.

Definition is_one_of (chars : string) (c : ascii) : bool :=
  existsb (Ascii.eqb c) (list_ascii_of_string chars).

Fixpoint drop_leading (chars : string) (cs : list ascii) : list ascii :=
  match cs with
  | [] => []
  | c :: rest => if is_one_of chars c then drop_leading chars rest else cs
  end.

Definition trim (chars s : string) : string :=
  string_of_list_ascii
    (rev (drop_leading chars
            (rev (drop_leading chars (list_ascii_of_string s))))).

Definition trimAny (str : Value) (chars : string) : string :=
  match str with
  | Str s => trim chars s
  | _ => ""
  end.

End Utils.

(* ================================================================== *)
(** ** HMAC-SHA256, as Node's [crypto] computes it *)
(* ================================================================== *)

(** Bytes are integers below 256 and words integers below [2^32]; a string is
    the sequence of its bytes. *)
Module Crypto.

Local Open Scope list_scope.

Definition bytes_of_string (s : string) : list Z :=
  map (fun c => Z.of_nat (nat_of_ascii c)) (list_ascii_of_string s).

Definition wrap32 (x : Z) : Z := x mod 2 ^ 32.

Definition add32 (x y : Z) : Z := wrap32 (x + y).

Definition rotr (n x : Z) : Z :=
  wrap32 (Z.lor (Z.shiftr x n) (Z.shiftl x (32 - n))).

Definition not32 (x : Z) : Z := Z.lxor x 0xffffffff.

Definition Ch (x y z : Z) : Z := Z.lxor (Z.land x y) (Z.land (not32 x) z).
Definition Maj (x y z : Z) : Z :=
  Z.lxor (Z.lxor (Z.land x y) (Z.land x z)) (Z.land y z).
Definition Sigma0 (x : Z) : Z := Z.lxor (Z.lxor (rotr 2 x) (rotr 13 x)) (rotr 22 x).
Definition Sigma1 (x : Z) : Z := Z.lxor (Z.lxor (rotr 6 x) (rotr 11 x)) (rotr 25 x).
Definition sigma0 (x : Z) : Z := Z.lxor (Z.lxor (rotr 7 x) (rotr 18 x)) (Z.shiftr x 3).
Definition sigma1 (x : Z) : Z := Z.lxor (Z.lxor (rotr 17 x) (rotr 19 x)) (Z.shiftr x 10).

(** The round constants and the initial hash are the first 32 bits of the
    fractional parts of the cube roots of the first 64 primes, and of the
    square roots of the first 8. *)
Definition is_prime (n : Z) : bool :=
  (1 <? n) && forallb (fun d => negb (n mod Z.of_nat d =? 0))
                      (seq 2 (Z.to_nat n - 2)).

Definition primes (count : nat) : list Z :=
  firstn count (filter is_prime (map Z.of_nat (seq 2 320))).

(** The integer cube root, found bit by bit from the top. *)
Definition cube_root (n : Z) : Z :=
  fold_left (fun r b => let r' := r + 2 ^ Z.of_nat b in
                        if r' * r' * r' <=? n then r' else r)
            (rev (seq 0 40)) 0.

Definition K : list Z :=
  Eval vm_compute in map (fun p => wrap32 (cube_root (p * 2 ^ 96))) (primes 64).

(** The eight working words. *)
Record Words : Type :=
  mkWords { wa : Z; wb : Z; wc : Z; wd : Z; we : Z; wf : Z; wg : Z; wh : Z }.

Definition initial_hash : Words :=
  Eval vm_compute in
    let h := map (fun p => wrap32 (Z.sqrt (p * 2 ^ 64))) (primes 8) in
    let at_ (i : nat) := nth i h 0 in
    mkWords (at_ 0%nat) (at_ 1%nat) (at_ 2%nat) (at_ 3%nat)
            (at_ 4%nat) (at_ 5%nat) (at_ 6%nat) (at_ 7%nat).

(** Big-endian bytes of a word and back. *)
Definition word_bytes (w : Z) : list Z :=
  [ Z.shiftr w 24 mod 256; Z.shiftr w 16 mod 256; Z.shiftr w 8 mod 256; w mod 256 ].

Fixpoint words_of_bytes (bs : list Z) : list Z :=
  match bs with
  | b0 :: b1 :: b2 :: b3 :: rest =>
      (Z.shiftl b0 24 + Z.shiftl b1 16 + Z.shiftl b2 8 + b3) :: words_of_bytes rest
  | _ => []
  end.

(** Padding: a [1] bit, zeros up to 56 modulo 64 bytes, then the length in
    bits on eight bytes. *)
Definition pad (msg : list Z) : list Z :=
  let len := Z.of_nat (length msg) in
  let zeros := Z.to_nat ((55 - len) mod 64) in
  msg ++ [0x80] ++ repeat 0 zeros
      ++ word_bytes (Z.shiftr (8 * len) 32) ++ word_bytes (wrap32 (8 * len)).

(** The message schedule: [n] more words after the ones in [w]. *)
Fixpoint schedule (n : nat) (w : list Z) : list Z :=
  match n with
  | O => w
  | S n' =>
      let t := length w in
      let at_ (i : nat) := nth (t - i) w 0 in
      schedule n' (w ++ [add32 (add32 (sigma1 (at_ 2%nat)) (at_ 7%nat))
                               (add32 (sigma0 (at_ 15%nat)) (at_ 16%nat))])
  end.

Definition round (s : Words) (kw : Z * Z) : Words :=
  let t1 := add32 (add32 (add32 (wh s) (Sigma1 (we s)))
                         (add32 (Ch (we s) (wf s) (wg s)) (fst kw))) (snd kw) in
  let t2 := add32 (Sigma0 (wa s)) (Maj (wa s) (wb s) (wc s)) in
  mkWords (add32 t1 t2) (wa s) (wb s) (wc s) (add32 (wd s) t1) (we s) (wf s) (wg s).

Definition compress (h : Words) (block : list Z) : Words :=
  let s := fold_left round (combine K (schedule 48 block)) h in
  mkWords (add32 (wa h) (wa s)) (add32 (wb h) (wb s))
          (add32 (wc h) (wc s)) (add32 (wd h) (wd s))
          (add32 (we h) (we s)) (add32 (wf h) (wf s))
          (add32 (wg h) (wg s)) (add32 (wh h) (wh s)).

(** The blocks of sixteen words; [fuel] bounds their number. *)
Fixpoint blocks (fuel : nat) (ws : list Z) : list (list Z) :=
  match fuel, ws with
  | S fuel', _ :: _ => firstn 16 ws :: blocks fuel' (skipn 16 ws)
  | _, _ => []
  end.

Definition sha256 (msg : list Z) : list Z :=
  let ws := words_of_bytes (pad msg) in
  let h := fold_left compress (blocks (length ws) ws) initial_hash in
  concat (map word_bytes
            [wa h; wb h; wc h; wd h; we h; wf h; wg h; wh h]).

(** HMAC over a hash with 64-byte blocks. *)
Definition hmac (hash : list Z -> list Z) (key msg : list Z) : list Z :=
  let k := if (64 <? Z.of_nat (length key)) then hash key else key in
  let k := k ++ repeat 0 (64 - length k)%nat in
  hash (map (Z.lxor 0x5c) k ++ hash (map (Z.lxor 0x36) k ++ msg)).

Definition hex_of_byte (b : Z) : string :=
  String (hex_digit (Z.to_nat (b / 16)))
         (String (hex_digit (Z.to_nat (b mod 16))) "").

(** The ['hex'] encoding of a buffer. *)
Definition hex (bs : list Z) : string := String.concat "" (map hex_of_byte bs).

(** The object [crypto.createHmac] returns: algorithm, key and the data
    fed so far. *)
Record Hmac : Type :=
  mkHmac { hmac_algorithm : string; hmac_key : string; hmac_data : string }.

(** [crypto.createHmac(algorithm, key)], for a key held in a string. *)
Definition createHmac (algorithm : string) (key : Value) : Completion Hmac :=
  if negb (String.eqb algorithm "sha256")
  then Throw (TypeError ("Invalid digest: " ++ algorithm)%string)
  else match key with
       | Str k => Normal (mkHmac algorithm k "")
       | _ => Throw (TypeError "The key argument must be of type string")
       end.

(** [hmac.update(data)] *)
Definition update (h : Hmac) (data : string) : Hmac :=
  mkHmac (hmac_algorithm h) (hmac_key h) (hmac_data h ++ data)%string.

(** [hmac.digest('hex')] *)
Definition digest_hex (h : Hmac) : string :=
  hex (hmac sha256 (bytes_of_string (hmac_key h)) (bytes_of_string (hmac_data h))).

End Crypto.

(* ================================================================== *)
(** ** Signing and dispatch *)
(* ================================================================== *)

(** [s.toUpperCase()] on the ASCII letters; the request types are [get],
    [post] and [delete]. *)
Definition upper_char (c : ascii) : ascii :=
  let n := nat_of_ascii c in
  if (Nat.leb 97 n && Nat.leb n 122)%bool then ascii_of_nat (n - 32) else c.

Fixpoint toUpperCase (s : string) : string :=
  match s with
  | EmptyString => ""
  | String c rest => String (upper_char c) (toUpperCase rest)
  end.

(** [getSignature(secret, timestamp, method, requestPath, payload)], for a
    numeric timestamp and string method and path as its documentation types
    them; [timestamp + method + requestPath + payload] is then a string
    concatenation that converts the timestamp and the payload. *)
Definition getSignature (secret : Value) (timestamp : Z)
           (method requestPath : string) (payload : Value) : Completion string :=
  cbind (Crypto.createHmac "sha256" secret) (fun h =>
  cbind (ToString payload) (fun p =>
  Normal (Crypto.digest_hex
            (Crypto.update h (decimal timestamp ++ method ++ requestPath ++ p))))).

(** The arguments [protectedRequest] hands to the signer. *)
Record SignatureInput : Type :=
  mkSignatureInput {
      sig_secret : Value;
      sig_timestamp : Z;
      sig_method : string;
      sig_path : string;
      sig_payload : Value }.

(** The options object handed to the HTTP client; [None] is a property left
    unset. *)
Record HttpOptions : Type :=
  mkHttpOptions {
      opt_url : string;
      opt_method : string;
      opt_timeout : Z;
      opt_headers : list (string * Value);
      opt_data : option Value;
      opt_params : option Value }.

(** A request ready for the HTTP client, with the description of its
    parameters the classifier logs. *)
Record PreparedRequest : Type :=
  mkPrepared {
      req_signed : option SignatureInput;
      req_options : HttpOptions;
      req_description : string }.

(** The value of [JSON.stringify(v)]. *)
Definition json_value (v : Value) : Value :=
  match JSON_stringify v with Some s => Str s | None => Undefined end.

Section Dispatch.

(** [getParamsString] of [helpers/utils] renders the parameters for the
    log lines only; any such helper will do. *)
Variable getParamsString : Value -> string.

Variable st : State.

(** [Date.now()] at the time of the call. *)
Variable now : Z.

(** [`${WEB_BASE}${path}`] *)
Definition url_of (path : string) : Completion string :=
  cbind (ToString (WEB_BASE st)) (fun base => Normal (base ++ path)).

(** Lines 115 to 121 of [protectedRequest]: what is signed, given the
    [stringifiedData] of line 113. *)
Definition signatureInput (type path : string) (stringifiedData : Value)
  : SignatureInput :=
  let timestamp := now in
  let signPayload := if String.eqb type "post" then stringifiedData else Str "" in
  let method := toUpperCase type in
  mkSignatureInput (secret_key (config st)) timestamp method path signPayload.

Definition sign (i : SignatureInput) : Completion string :=
  getSignature (sig_secret i) (sig_timestamp i) (sig_method i) (sig_path i)
               (sig_payload i).

(** [protectedRequest(type, path, data)] up to the call of the HTTP
    client. *)
Definition protectedRequest (type path : string) (data : Value)
  : Completion PreparedRequest :=
  cbind (url_of path) (fun url =>
  let bodyString := getParamsString data in
  let stringifiedData := json_value data in
  let input := signatureInput type path stringifiedData in
  cbind (sign input) (fun signature =>
  let headers :=
    [ ("Content-Type", Str "application/json");
      ("AccessKey", apiKey (config st));
      ("SecretKey", secret_key (config st));
      ("Timestamp", Num (sig_timestamp input));
      ("SignatureVersion", Str "v1.0");
      ("SignatureMethod", Str "HmacSHA256");
      ("Signature", Str signature) ] in
  let httpOptions :=
    if String.eqb type "post"
    then mkHttpOptions url type 10000 headers (Some stringifiedData) None
    else mkHttpOptions url type 10000 headers None (Some data) in
  Normal (mkPrepared (Some input) httpOptions bodyString))).

(** [publicRequest(type, path, params)] up to the call of the HTTP
    client. *)
Definition publicRequest (type path : string) (params : Value)
  : Completion PreparedRequest :=
  cbind (url_of path) (fun url =>
  let queryString := getParamsString params in
  Normal (mkPrepared None
            (mkHttpOptions url type 10000 [] None (Some params))
            queryString)).

End Dispatch.

(** How the promise of the HTTP client ends. *)
Inductive AxiosResult : Type :=
| Fulfilled (response : Value)
| Failed (error : Value).

Section Settling.

Variable trimAny : Value -> string -> string.
Variable st : State.

(** [axios(httpOptions).then(r => handleResponse(r, ...))
                       .catch(e => handleResponse(e, ...))]:
    an exception that escapes the first handler reaches the second one as
    the error; one that escapes the second handler is lost. *)
Definition settle (result : AxiosResult) (queryString url : string)
  : Store * Completion unit :=
  match result with
  | Fulfilled response =>
      match handleResponse trimAny st response queryString url with
      | (s, Normal tt) => (s, Normal tt)
      | (s, Throw e) =>
          handleResponse_body trimAny st (exn_value e) queryString url
            (mkStore (data_of (exn_value e)) (trace s))
      end
  | Failed error => handleResponse trimAny st error queryString url
  end.

End Settling.

(** *** Configuration *)

(** [setConfig(apiServer, apiKey, secretKey, tradePwd, logger, publicOnly)];
    a [logger] that is [None] stands for a falsy argument. *)
Definition setConfig (s : State) (apiServer apiKey secretKey tradePwd : Value)
           (logger : option Logger) (publicOnly : Value) : State :=
  let s1 := if truthy apiServer
            then mkState apiServer (config s) (log s) else s in
  let s2 := match logger with
            | Some l => mkState (WEB_BASE s1) (config s1) l
            | None => s1
            end in
  if negb (truthy publicOnly)
  then mkState (WEB_BASE s2) (mkCredentials apiKey secretKey tradePwd) (log s2)
  else s2.

(** *** What a run leaves behind *)

Definition is_settlement (ev : Event) : bool :=
  match ev with Resolve _ | Reject _ => true | _ => false end.

Definition is_logger_line (ev : Event) : bool :=
  match ev with LogLog _ | LogWarn _ => true | _ => false end.

(** The calls of [resolve] and [reject], in order. *)
Definition settlements (run : Store * Completion unit) : list Event :=
  filter is_settlement (trace (fst run)).

(** The lines handed to the logger, in order. *)
Definition logger_lines (run : Store * Completion unit) : list Event :=
  filter is_logger_line (trace (fst run)).

(** The run ended with an exception that nothing caught. *)
Definition escaped (run : Store * Completion unit) : option Exn :=
  match snd run with Throw e => Some e | Normal _ => None end.

(** *** Size of a value *)


(** The signature as the specification words it: the lowercase hexadecimal
    HMAC-SHA256, keyed by the secret, of the timestamp in decimal, the method,
    the path and the payload, one after the other. *)
Definition sign_spec (secret : string) (timestampMillis : Z)
           (method path payload : string) : string :=
  Crypto.hex
    (Crypto.hmac Crypto.sha256
       (Crypto.bytes_of_string secret)
       (Crypto.bytes_of_string
          (String.concat "" [decimal timestampMillis; method; path; payload]))).

Definition is_lower_hex (c : ascii) : bool :=
  let n := nat_of_ascii c in
  ((Nat.leb 48 n && Nat.leb n 57) || (Nat.leb 97 n && Nat.leb n 102))%bool.

Definition is_lower_letter (c : ascii) : bool :=
  let n := nat_of_ascii c in (Nat.leb 97 n && Nat.leb n 122)%bool.

(** Every character of [s] passes the test [p]. *)
Fixpoint all_chars (p : ascii -> bool) (s : string) : bool :=
  match s with
  | EmptyString => true
  | String c rest => (p c && all_chars p rest)%bool
  end.

(** A transport failure that carries no response: neither a status nor a
    body, directly or under [response]. *)
Definition pure_transport_failure (outcome : Value) : Prop :=
  nullish (get_opt outcome "status") = true
  /\ nullish (get_opt outcome "response") = true
  /\ nullish (get_opt outcome "data") = true.

(** A logger with both methods, and the module once configured with it. *)
Definition logger : Logger := mkLogger "logger" true true.

Definition configured : State :=
  setConfig initial_state Undefined (Str "key") (Str "secret") (Str "pwd")
            (Some logger) Undefined.

(** Outcomes used as examples: the ones of section 8 of the specification,
    a response and a failed request whose JSON body is [null], a body whose
    message is an object with a [toString] entry, and a timeout. *)
Definition signature_error_outcome : Value :=
  Obj [("status", Num 200);
       ("data", Obj [("code", Num 112015); ("msg", Str "bad sig")])].

Definition ip_restricted_outcome : Value :=
  Obj [("status", Num 401);
       ("data", Obj [("code", Num 112011); ("msg", Str "ip restricted")])].

Definition null_body_response : Value :=
  Obj [("status", Num 200); ("statusText", Str "OK"); ("data", Null)].

Definition null_body_failure : Value :=
  Err "AxiosError" "Request failed with status code 500"
      [("response", Obj [("status", Num 500);
                         ("statusText", Str "Internal Server Error");
                         ("data", Null)])].


Definition timeout_failure : Value :=
  Err "AxiosError" "timeout of 10000ms exceeded" [("code", Str "ECONNABORTED")].


Definition unprintable_code_failure : Value :=
  Err "AxiosError" "Request failed with status code 500"
      [("response", Obj [("status", Num 500);
                         ("statusText", Str "Internal Server Error");
                         ("data", Obj [("code", Obj [("toString", Num 1)])])])].

Definition unprintable_failure : Value := Obj [("toString", Num 1)].



(** The elements of an array. *)
Definition elements (v : Value) : list Value :=
  match v with Arr items _ => items | _ => [] end.

(** The own named properties of an object. *)
Definition own_props (v : Value) : list (string * Value) :=
  match v with Arr _ ps | Obj ps | Err _ _ ps => ps | _ => [] end.

(** The keys of an object, in order. *)
Definition keys (ps : list (string * Value)) : list string := map fst ps.

(* ================================================================== *)
(** ** The operations of the exchange API *)
(* ================================================================== *)

(** The [length] of a function found on [Object.prototype]: the number of
    its parameters. *)
Definition builtin_length (f : string) : Z :=
  if existsb (String.eqb f) ["__defineGetter__"; "__defineSetter__"] then 2
  else if existsb (String.eqb f)
            ["Object"; "hasOwnProperty"; "__lookupGetter__";
             "__lookupSetter__"; "isPrototypeOf"; "propertyIsEnumerable"]
       then 1
  else 0.

(** [v?.length].  An array answers the number of its elements and a string
    that of its bytes, which is zero exactly when the string is empty: the
    source only tests the length for truth. *)
Definition length_opt (v : Value) : Value :=
  match v with
  | Undefined | Null | Bool _ | Num _ => Undefined
  | Str s => Num (Z.of_nat (String.length s))
  | Arr items _ => Num (Z.of_nat (List.length items))
  | Obj ps | Err _ _ ps => from_option (lookup "length" ps)
  | Builtin f => Num (builtin_length f)
  end.

(** What a call of an operation hands back: a promise waiting for the HTTP
    client, or, from an [async] function whose body threw, a promise that is
    already rejected. *)
Inductive Returned : Type :=
| Pending (req : PreparedRequest)
| RejectedEarly (e : Exn).

Section Operations.

Variable getParamsString : Value -> string.
Variable st : State.
Variable now : Z.

(** [getBalances()] *)
Definition getBalances : Completion Returned :=
  cbind (protectedRequest getParamsString st now "get"
           (versioning_v1 ++ "/api/account/wallet") (Obj []))
        (fun req => Normal (Pending req)).

(** The [data] of [getOrderDetails] and of [cancelOrder]. *)
Definition order_reference (symbol orderId clientOid : Value) : Value :=
  let data := [("symbol", symbol)] in
  let data := if truthy orderId then store "orderId" orderId data else data in
  let data := if truthy clientOid then store "clientOid" clientOid data else data in
  Obj data.

(** [getOrderDetails(symbol, orderId, clientOid)], an [async] function: an
    exception of its body rejects the promise it returns. *)
Definition getOrderDetails (symbol orderId clientOid : Value) : Completion Returned :=
  let data := order_reference symbol orderId clientOid in
  match protectedRequest getParamsString st now "post"
          (versioning_v1 ++ "/api/spot/orderdetail") data with
  | Normal req => Normal (Pending req)
  | Throw e => Normal (RejectedEarly e)
  end.

(** The [data] of [addOrder]. *)
Definition order_data (symbol side orderType amount
                       clientOid price triggerPrice backRatio : Value) : Value :=
  let data := [("symbol", symbol); ("side", side);
               ("orderType", orderType); ("amount", amount)] in
  let data := if truthy clientOid then store "clientOid" clientOid data else data in
  let data := if truthy price then store "price" price data else data in
  let data := if truthy triggerPrice
              then store "triggerPrice" triggerPrice data else data in
  let data := if truthy backRatio then store "backRatio" backRatio data else data in
  Obj data.

(** [addOrder(symbol, side, orderType, amount, clientOid, price,
              triggerPrice, backRatio)] *)
Definition addOrder (symbol side orderType amount
                     clientOid price triggerPrice backRatio : Value)
  : Completion Returned :=
  let data := order_data symbol side orderType amount
                         clientOid price triggerPrice backRatio in
  cbind (protectedRequest getParamsString st now "post"
           (versioning_v1 ++ "/api/spot/orders") data)
        (fun req => Normal (Pending req)).

(** [cancelOrder(symbol, orderId, clientOid)] *)
Definition cancelOrder (symbol orderId clientOid : Value) : Completion Returned :=
  let data := order_reference symbol orderId clientOid in
  cbind (protectedRequest getParamsString st now "post"
           (versioning_v1 ++ "/api/spot/cancel_orders") data)
        (fun req => Normal (Pending req)).

(** The [data] of [cancelAllOrders]. *)
Definition orders_reference (symbol orderIds clientOids : Value) : Value :=
  let data := [("symbol", symbol)] in
  let data := if truthy (length_opt orderIds)
              then store "orderIds" orderIds data else data in
  let data := if truthy (length_opt clientOids)
              then store "clientOids" clientOids data else data in
  Obj data.

(** [cancelAllOrders(symbol, orderIds, clientOids)] *)
Definition cancelAllOrders (symbol orderIds clientOids : Value)
  : Completion Returned :=
  let data := orders_reference symbol orderIds clientOids in
  cbind (protectedRequest getParamsString st now "post"
           (versioning_v1 ++ "/api/spot/cancel_orders_all") data)
        (fun req => Normal (Pending req)).

(** [currencies()] *)
Definition currencies : Completion Returned :=
  cbind (protectedRequest getParamsString st now "get"
           (versioning_v1 ++ "/common/currencys") (Obj []))
        (fun req => Normal (Pending req)).

(** [currenciesPublic()] *)
Definition currenciesPublic : Completion Returned :=
  cbind (publicRequest getParamsString st "get"
           (versioning_v2 ++ "/public/assets") (Obj []))
        (fun req => Normal (Pending req)).

End Operations.

(** The request a call left with the HTTP client, if any. *)
Definition request_of (c : Completion Returned) : option PreparedRequest :=
  match c with Normal (Pending req) => Some req | _ => None end.

(** The text the HTTP client sends as body: the string under [data], nothing
    when [data] is unset or undefined. *)
Definition sent_body (o : HttpOptions) : option string :=
  match opt_data o with Some (Str s) => Some s | _ => None end.

(** The module state as the classifier sees it. *)
Definition same_logger_methods (s1 s2 : State) : Prop :=
  has_log (log s1) = has_log (log s2) /\ has_warn (log s1) = has_warn (log s2).

(** How the pending result of a request ends: the first call of [resolve] or
    [reject] settles it, later ones are ignored. *)
Inductive Fate : Type :=
| StillPending
| Fulfilled_with (v : Value)
| Rejected_with (reason : string).

Fixpoint fate_of (events : list Event) : Fate :=
  match events with
  | [] => StillPending
  | Resolve v :: _ => Fulfilled_with v
  | Reject r :: _ => Rejected_with r
  | _ :: rest => fate_of rest
  end.

(* ================================================================== *)
(** ** Properties of the value model *)
(* ================================================================== *)

Lemma is_num_true (v : Value) (n : Z) : is_num v n = true <-> v = Num n.
Proof.
  destruct v; simpl; split; intro H; try discriminate.
  - apply Z.eqb_eq in H. now subst.
  - injection H as ->. apply Z.eqb_refl.
Qed.

Lemma is_str_true (v : Value) (s : string) : is_str v s = true <-> v = Str s.
Proof.
  destruct v; simpl; split; intro H; try discriminate.
  - apply String.eqb_eq in H. now subst.
  - injection H as ->. apply String.eqb_refl.
Qed.

Lemma get_normal (v x : Value) (k : string) :
  get v k = Normal x <-> nullish v = false /\ x = field v k.
Proof.
  unfold get. destruct (nullish v); split.
  - discriminate.
  - intros [H _]. discriminate.
  - intro H. injection H as <-. auto.
  - intros [_ ->]. reflexivity.
Qed.

Lemma lookup_store_same (k : string) (x : Value) (ps : list (string * Value)) :
  lookup k (store k x ps) = Some x.
Proof.
  induction ps as [|[k' v'] rest IH]; simpl.
  - now rewrite String.eqb_refl.
  - destruct (String.eqb k k') eqn:E; simpl.
    + now rewrite String.eqb_refl.
    + now rewrite E.
Qed.

Lemma lookup_store_other (k k' : string) (x : Value) (ps : list (string * Value)) :
  k' <> k -> lookup k' (store k x ps) = lookup k' ps.
Proof.
  intro Hne. induction ps as [|[k0 v0] rest IH]; simpl.
  - destruct (String.eqb k' k) eqn:E; [apply String.eqb_eq in E; contradiction | reflexivity].
  - destruct (String.eqb k k0) eqn:E; simpl.
    + apply String.eqb_eq in E. subst k0.
      destruct (String.eqb k' k) eqn:E'; [apply String.eqb_eq in E'; contradiction | reflexivity].
    + now rewrite IH.
Qed.

(** Storing a key keeps the other keys and their order; a new key goes
    last. *)
Lemma keys_store (k : string) (x : Value) (ps : list (string * Value)) :
  keys (store k x ps) = if has_key k ps then keys ps else (keys ps ++ [k])%list.
Proof.
  unfold has_key. induction ps as [|[k' v'] rest IH]; simpl; [reflexivity|].
  destruct (String.eqb k k') eqn:E; simpl.
  - apply String.eqb_eq in E. now subst.
  - rewrite IH. now destruct (lookup k rest).
Qed.





(** Assigning one property leaves every other property as it was. *)
Lemma field_assign_other (v v' x : Value) (k k' : string) :
  assign v k x = Normal v' -> k' <> k -> field v' k' = field v k'.
Proof.
  intros H Hne.
  destruct v; simpl in H; try discriminate; injection H as <-; simpl;
    try reflexivity; now rewrite lookup_store_other.
Qed.

Lemma field_assign_same (v v' x : Value) (k : string) :
  assign v k x = Normal v' -> String.eqb (typeof v) "object" = true ->
  k <> "name" -> k <> "message" -> field v' k = x.
Proof.
  intros H Ht Hn Hm.
  destruct v; simpl in H, Ht; try discriminate; injection H as <-; simpl.
  - now rewrite lookup_store_same.
  - now rewrite lookup_store_same.
  - apply String.eqb_neq in Hn, Hm. rewrite Hn, Hm. now rewrite lookup_store_same.
Qed.



Lemma append_assoc (a b c : string) : (a ++ b) ++ c = a ++ b ++ c.
Proof. induction a as [|x a IH]; cbn; [reflexivity | now rewrite IH]. Qed.

Lemma append_empty_r (a : string) : a ++ "" = a.
Proof. induction a as [|x a IH]; cbn; [reflexivity | now rewrite IH]. Qed.

Lemma includes_prefix (s t : string) : String.prefix t s = true -> includes s t = true.
Proof. intro H. destruct s; cbn [includes]; now rewrite H. Qed.

Lemma prefix_app (t u : string) : String.prefix t (t ++ u) = true.
Proof.
  induction t as [|c t IH]; simpl.
  - now destruct u.
  - destruct (ascii_dec c c) as [_|N]; [exact IH | contradiction].
Qed.

Lemma includes_skip (a s t : string) :
  includes s t = true -> includes (a ++ s) t = true.
Proof.
  intro H. induction a as [|x a IH]; [exact H|].
  change (String x a ++ s) with (String x (a ++ s)). cbn [includes].
  destruct (String.prefix t (String x (a ++ s))); [reflexivity | exact IH].
Qed.

Lemma includes_here (t u : string) : includes (t ++ u) t = true.
Proof. apply includes_prefix, prefix_app. Qed.

(** A text contains each of its parts. *)
Lemma includes_app (a b c : string) : includes (a ++ b ++ c) b = true.
Proof.
  induction a as [|x a IH].
  - cbn [append]. apply includes_prefix, prefix_app.
  - change (String x a ++ b ++ c) with (String x (a ++ b ++ c)).
    cbn [includes].
    destruct (String.prefix b (String x (a ++ b ++ c))); [reflexivity | exact IH].
Qed.

(* ================================================================== *)
(** ** Properties of the classifier *)
(* ================================================================== *)

Ltac run_monad :=
  unfold try_catch, bind, lift, ret, emit, read_body, write_body; cbn [fst snd body trace].

Section ClassifierFacts.

Variable trimAny : Value -> string -> string.
Variable st : State.

(** The success test holds exactly for status 200 with code 200 or ["0"]. *)
Lemma success_of_true (httpCode data : Value) :
  success_of httpCode data = Normal true
  <-> httpCode = Num 200
      /\ (get data "code" = Normal (Num 200) \/ get data "code" = Normal (Str "0")).
Proof.
  unfold success_of, statusCodes_ok, statusCodes_zero.
  destruct (is_num httpCode 200) eqn:Eh.
  - apply is_num_true in Eh. subst httpCode.
    destruct (get data "code") as [c|e] eqn:Ec; cbn [cbind].
    + destruct (is_num c 200) eqn:E1.
      * apply is_num_true in E1. subst c. split; auto.
      * split.
        -- intro H. injection H as H. apply is_str_true in H. subst c. auto.
        -- intros [_ [H | H]]; injection H as ->; [discriminate | reflexivity].
    + split; [discriminate | intros [_ [H | H]]; discriminate].
  - split; [discriminate |].
    intros [-> _]. discriminate.
Qed.


Lemma success_of_other (httpCode data : Value) :
  httpCode <> Num 200 -> success_of httpCode data = Normal false.
Proof.
  intro H. unfold success_of, statusCodes_ok.
  destruct (is_num httpCode 200) eqn:E; [apply is_num_true in E; contradiction|].
  reflexivity.
Qed.

(** A success code is found in no table and converts without exception. *)
Lemma error_msg_on_success (data : Value) :
  get data "code" = Normal (Num 200) \/ get data "code" = Normal (Str "0") ->
  exists msg, error_msg data = Normal msg.
Proof.
  intros [H | H]; apply get_normal in H; destruct H as [Hn Hc];
    unfold error_msg, description_of, get_opt; rewrite Hn, <- Hc; cbn; eauto.
Qed.

(** The run of a successful outcome. *)
Lemma run_success (outcome : Value) (queryString url : string) :
  success_of (httpCode_of outcome) (data_of outcome) = Normal true ->
  handleResponse trimAny st outcome queryString url
  = (mkStore (data_of outcome)
             [ConsoleLog (Obj [("data", data_of outcome)]);
              Resolve (field (data_of outcome) "data")],
     Normal tt).
Proof.
  intro Hs. pose proof Hs as Hs'. apply success_of_true in Hs' as [_ Hc].
  destruct (error_msg_on_success _ Hc) as [msg Hm].
  assert (Hn : nullish (data_of outcome) = false).
  { destruct Hc as [H | H]; apply get_normal in H; tauto. }
  unfold handleResponse, handleResponse_body. run_monad.
  rewrite Hs. run_monad. rewrite Hm. run_monad.
  unfold try_block. run_monad. unfold get. rewrite Hn. reflexivity.
Qed.



(** The run of an outcome with a status other than 200, when the
    diagnostic composes, the body is not [null] and the logger has
    [warn]. *)
Lemma run_rejection (outcome : Value) (queryString url : string)
      (msg : Value) (info text : string) :
  httpCode_of outcome <> Num 200 ->
  error_msg (data_of outcome) = Normal msg ->
  fameexErrorInfo_of trimAny (error_code (data_of outcome)) msg = Normal info ->
  errorMessage_of outcome (httpCode_of outcome) (httpMessage_of outcome) info
  = Normal text ->
  data_of outcome <> Null ->
  has_warn (log st) = true ->
  trace (fst (handleResponse trimAny st outcome queryString url))
  = [ConsoleLog (Obj [("data", data_of outcome)]);
     LogWarn ("Request to " ++ url ++ " with data " ++ reqParameters_of queryString
              ++ " failed. details: " ++ text ++ ". Rejecting…");
     Reject text]
  /\ snd (handleResponse trimAny st outcome queryString url) = Normal tt.
Proof.
  intros Hh Hm Hi He Hd Hw.
  unfold handleResponse, handleResponse_body. run_monad.
  rewrite (success_of_other _ _ Hh). run_monad. rewrite Hm. run_monad.
  unfold try_block. run_monad. rewrite Hi. run_monad. rewrite He. run_monad.
  assert (Hn : is_num (httpCode_of outcome) statusCodes_ok = false).
  { destruct (is_num _ _) eqn:E; [apply is_num_true in E; contradiction | reflexivity]. }
  destruct (data_of outcome) eqn:Ed; try contradiction;
    cbn [typeof String.eqb Ascii.eqb Bool.eqb assign]; run_monad;
    rewrite Hn; unfold log_warn; rewrite Hw; run_monad; split; reflexivity.
Qed.

(** The run of an outcome whose [try] block throws, when the logger has
    [warn]: the [catch] block reports the body as the store holds it. *)
Lemma run_catch (outcome : Value) (queryString url : string)
      (success : bool) (msg : Value) (s' : Store) (e : Exn) :
  success_of (httpCode_of outcome) (data_of outcome) = Normal success ->
  error_msg (data_of outcome) = Normal msg ->
  try_block trimAny st outcome (httpCode_of outcome) (httpMessage_of outcome)
           (error_code (data_of outcome)) msg success
           (reqParameters_of queryString) url
           (mkStore (data_of outcome) [ConsoleLog (Obj [("data", data_of outcome)])])
  = (s', Throw e) ->
  has_warn (log st) = true ->
  handleResponse trimAny st outcome queryString url
  = (mkStore (body s')
       (trace s' ++
        [LogWarn ("Error while processing response of request to " ++ url
                  ++ " with data " ++ reqParameters_of queryString ++ ": "
                  ++ exn_to_string e ++ ". Data object I've got: "
                  ++ json_text (body s') ++ ".");
         Reject ("Unable to process data: " ++ json_text (body s') ++ ". "
                 ++ exn_to_string e)]),
     Normal tt).
Proof.
  intros Hs Hm Hc Hw.
  unfold handleResponse, handleResponse_body. run_monad.
  rewrite Hs. run_monad. rewrite Hm. run_monad.
  cbn [app]. rewrite Hc. unfold catch_block, log_warn. rewrite Hw. run_monad.
  now rewrite <- app_assoc.
Qed.

(** Case analysis on a run of the failure branch of the [try] block. *)
Ltac failure_branch_cases d :=
  unfold try_block, log_log, log_warn; run_monad;
  repeat match goal with
         | |- context [match ?c with Normal _ => _ | Throw _ => _ end] =>
             destruct c eqn:?; run_monad
         | |- context [if String.eqb (typeof d) "object" then _ else _] =>
             destruct (String.eqb (typeof d) "object") eqn:?; run_monad
         | |- context [if is_num ?h statusCodes_ok then _ else _] =>
             destruct (is_num h statusCodes_ok) eqn:?; run_monad
         | |- context [if has_log ?l then _ else _] =>
             destruct (has_log l) eqn:?; run_monad
         | |- context [if has_warn ?l then _ else _] =>
             destruct (has_warn l) eqn:?; run_monad
         end.

(** On the failure branch [resolve] receives the body, annotated when it
    is an object, and only for status 200. *)
Lemma try_block_failure_resolves
      (outcome httpCode httpMessage code msg d v : Value)
      (reqParameters url : string) (t : list Event) (s' : Store)
      (c : Completion unit) :
  try_block trimAny st outcome httpCode httpMessage code msg false
           reqParameters url (mkStore d t) = (s', c) ->
  In (Resolve v) (trace s') ->
  In (Resolve v) t
  \/ (httpCode = Num 200
      /\ ((String.eqb (typeof d) "object" = false /\ v = d)
          \/ exists info, assign d "fameexErrorInfo" (Str info) = Normal v)).
Proof.
  failure_branch_cases d; intros H Hin; injection H as <- <-;
    cbn [trace] in Hin; auto;
    repeat (apply in_app_or in Hin; destruct Hin as [Hin | Hin]); auto;
    cbn [In] in Hin;
    repeat match goal with
           | H : _ \/ _ |- _ => destruct H
           | H : False |- _ => contradiction
           | H : LogLog _ = Resolve _ |- _ => discriminate H
           | H : LogWarn _ = Resolve _ |- _ => discriminate H
           | H : Reject _ = Resolve _ |- _ => discriminate H
           | H : Resolve _ = Resolve _ |- _ => injection H as <-
           end;
    right;
    match goal with
    | H : is_num _ statusCodes_ok = true |- _ => apply is_num_true in H
    end;
    (split; [assumption|]); eauto.
Qed.

(** A throw of the [try] block leaves the events as they were, and the
    body either untouched or annotated. *)
Lemma try_block_throw_store
      (outcome httpCode httpMessage code msg d : Value) (success : bool)
      (reqParameters url : string) (t : list Event) (s' : Store) (e : Exn) :
  try_block trimAny st outcome httpCode httpMessage code msg success
           reqParameters url (mkStore d t) = (s', Throw e) ->
  trace s' = t
  /\ (body s' = d
      \/ exists info, assign d "fameexErrorInfo" (Str info) = Normal (body s')).
Proof.
  destruct success.
  - unfold try_block. run_monad. destruct (get d "data"); run_monad.
    + discriminate.
    + intro H. injection H as <- _. auto.
  - failure_branch_cases d; intro H; try discriminate; injection H as <- _;
      cbn [trace body]; eauto.
Qed.

(** The [catch] block resolves nothing. *)
Lemma catch_block_resolves (reqParameters url : string) (e : Exn)
      (s s' : Store) (c : Completion unit) (v : Value) :
  catch_block st reqParameters url e s = (s', c) ->
  In (Resolve v) (trace s') -> In (Resolve v) (trace s).
Proof.
  unfold catch_block, log_warn. run_monad.
  destruct (has_warn (log st)); run_monad; intros H Hin; injection H as <- _;
    cbn [trace] in Hin; auto.
  repeat (apply in_app_or in Hin; destruct Hin as [Hin | Hin]); auto;
    cbn [In] in Hin; destruct Hin as [Hin | []]; discriminate.
Qed.

(** An outcome that is not a success resolves only on status 200, and
    then with the body, annotated when it is an object. *)
Lemma failure_resolves_inv (outcome : Value) (queryString url : string)
      (v : Value) :
  success_of (httpCode_of outcome) (data_of outcome) <> Normal true ->
  In (Resolve v)
     (trace (fst (handleResponse trimAny st outcome queryString url))) ->
  httpCode_of outcome = Num 200
  /\ ((String.eqb (typeof (data_of outcome)) "object" = false
       /\ v = data_of outcome)
      \/ exists info,
          assign (data_of outcome) "fameexErrorInfo" (Str info) = Normal v).
Proof.
  intros Hs Hin.
  unfold handleResponse, handleResponse_body in Hin.
  revert Hin. run_monad.
  destruct (success_of _ _) as [[|]|e] eqn:Es; [contradiction | | cbn; tauto].
  run_monad. destruct (error_msg _) as [msg|e]; run_monad.
  2:{ cbn. intros [H | []]. discriminate. }
  cbn [app].
  destruct (try_block _ _ _ _ _ _ _ _ _ _ _) as [s' [[]|e]] eqn:Ec; intro Hin.
  - cbn [fst] in Hin.
    destruct (try_block_failure_resolves _ _ _ _ _ _ _ _ _ _ _ _ Ec Hin)
      as [[H | []] | H]; [discriminate | exact H].
  - destruct (catch_block _ _ _ _ _) as [s'' c] eqn:Er. cbn [fst] in Hin.
    pose proof (catch_block_resolves _ _ _ _ _ _ _ Er Hin) as Hin'.
    destruct (try_block_throw_store _ _ _ _ _ _ _ _ _ _ _ _ Ec) as [Ht _].
    rewrite Ht in Hin'. destruct Hin' as [H | []]. discriminate.
Qed.



(** With both logger methods at hand, a call whose first statements do
    not throw settles the pending result exactly once. *)
Lemma handleResponse_settles_once (outcome : Value) (queryString url : string)
      (success : bool) (msg : Value) :
  has_log (log st) = true -> has_warn (log st) = true ->
  success_of (httpCode_of outcome) (data_of outcome) = Normal success ->
  error_msg (data_of outcome) = Normal msg ->
  let run := handleResponse trimAny st outcome queryString url in
  (exists ev, settlements run = [ev]) /\ escaped run = None.
Proof.
  intros Hl Hw Hs Hm run. subst run.
  destruct success; [rewrite (run_success _ _ _ Hs); cbn; eauto|].
  unfold handleResponse, handleResponse_body. run_monad.
  rewrite Hs. run_monad. rewrite Hm. run_monad. cbn [app].
  unfold catch_block.
  failure_branch_cases (data_of outcome);
    try congruence; unfold settlements, escaped; cbn; eauto.
Qed.

(** Whatever the outcome and the logger, a call never settles twice: it
    settles once when it ends normally and not at all when an exception
    escapes it. *)
Lemma handleResponse_settles_at_most_once (outcome : Value)
      (queryString url : string) :
  let run := handleResponse trimAny st outcome queryString url in
  ((exists ev, settlements run = [ev]) /\ snd run = Normal tt)
  \/ (settlements run = [] /\ exists e, snd run = Throw e).
Proof.
  assert (Once : forall (s : Store) (ev : Event),
             filter is_settlement (trace s) = [ev] ->
             ((exists ev', settlements (s, Normal tt) = [ev'])
              /\ snd (s, Normal tt) = Normal tt)
             \/ (settlements (s, Normal tt) = []
                 /\ exists e, snd (s, @Normal unit tt) = Throw e)).
  { intros s ev H. left. split; [exists ev; exact H | reflexivity]. }
  assert (None_ : forall (s : Store) (e : Exn),
             filter is_settlement (trace s) = [] ->
             ((exists ev', settlements (s, @Throw unit e) = [ev'])
              /\ snd (s, @Throw unit e) = Normal tt)
             \/ (settlements (s, @Throw unit e) = []
                 /\ exists e', snd (s, @Throw unit e) = Throw e')).
  { intros s e H. right. split; [exact H | exists e; reflexivity]. }
  unfold handleResponse, handleResponse_body. run_monad.
  destruct (success_of _ _) as [success|e]; run_monad;
    [|now apply None_].
  destruct (error_msg _) as [msg|e]; run_monad; [|now apply None_].
  cbn [app]. unfold catch_block.
  destruct success.
  - unfold try_block, log_warn. run_monad.
    destruct (get (data_of outcome) "data"); run_monad;
      [now eapply Once|].
    destruct (has_warn (log st)); run_monad;
      [now eapply Once | now apply None_].
  - failure_branch_cases (data_of outcome);
      first [now eapply Once | now apply None_].
Qed.

End ClassifierFacts.

(* ================================================================== *)
(** ** The specification of the classifier *)
(* ================================================================== *)






(** C4 fails on the code.  A response with status 200 whose JSON body is
    [null] reaches [data.code] with [data] undefined: the read throws before
    the [try] block is entered, so the call ends with an exception and has
    invoked neither [resolve] nor [reject]. *)
Theorem handleResponse_null_body_unsettled :
  forall (trimAny : Value -> string -> string) (st : State)
         (queryString url : string),
    let run := handleResponse trimAny st null_body_response queryString url in
    run = (mkStore Undefined [],
           Throw (TypeError "Cannot read properties of undefined (reading 'code')"))
    /\ settlements run = []
    /\ escaped run
       = Some (TypeError "Cannot read properties of undefined (reading 'code')").
Proof. intros. repeat split. Qed.

(** In the request chain that exception reaches the [catch] handler, which
    calls the classifier again with the exception as outcome; that second
    call rejects. *)
Lemma settle_null_body_response (queryString url : string) :
  settlements (settle Utils.trimAny configured (Fulfilled null_body_response)
                      queryString url)
  = [Reject "TypeError: Cannot read properties of undefined (reading 'code')"].
Proof. reflexivity. Qed.

Lemma ToString_exn (e : Exn) : ToString (exn_value e) = Normal (exn_to_string e).
Proof.
  destruct e as [n m]. unfold exn_value, exn_to_string. cbn.
  destruct (String.eqb n ""); [reflexivity|].
  now destruct (String.eqb m "").
Qed.

(** The classifier called with a caught exception as outcome rejects with
    the text of the exception. *)
Lemma handleResponse_body_exn (trimAny : Value -> string -> string) (st : State)
      (e : Exn) (queryString url : string) (t : list Event) :
  has_warn (log st) = true ->
  handleResponse_body trimAny st (exn_value e) queryString url
                      (mkStore (data_of (exn_value e)) t)
  = (mkStore Undefined
       (t ++ [ConsoleLog (Obj [("data", Undefined)]);
              LogWarn ("Request to " ++ url ++ " with data "
                       ++ reqParameters_of queryString ++ " failed. details: "
                       ++ exn_to_string e ++ ". Rejecting…");
              Reject (exn_to_string e)]),
     Normal tt).
Proof.
  intro Hw.
  assert (Hh : httpCode_of (exn_value e) = Undefined) by reflexivity.
  assert (Hd : data_of (exn_value e) = Undefined) by reflexivity.
  unfold handleResponse_body. rewrite Hh, Hd.
  change (success_of Undefined Undefined) with (@Normal bool false).
  change (error_msg Undefined) with (Normal (Str "Unknown error")).
  run_monad. unfold try_block. run_monad.
  change (fameexErrorInfo_of trimAny (error_code Undefined) (Str "Unknown error"))
    with (Normal ("[No error code] " ++ trimAny (Str "Unknown error") " .")).
  unfold errorMessage_of. cbn [truthy]. rewrite ToString_exn. run_monad.
  cbn [typeof String.eqb Ascii.eqb Bool.eqb is_num]. run_monad.
  unfold log_warn. rewrite Hw. run_monad.
  now rewrite <- !app_assoc.
Qed.

(** X2.  A fulfilled request is settled exactly once, whatever the response,
    as soon as the logger has [warn]: an exception that escapes the first
    call of the classifier is classified by the second one as a failure
    without response, and rejected. *)
Lemma settle_fulfilled_once (trimAny : Value -> string -> string) (st : State)
      (response : Value) (queryString url : string) :
  has_warn (log st) = true ->
  let run := settle trimAny st (Fulfilled response) queryString url in
  (exists ev, settlements run = [ev]) /\ escaped run = None.
Proof.
  intros Hw run. subst run. unfold settle.
  destruct (handleResponse_settles_at_most_once trimAny st response
              queryString url) as [[H1 H2] | [H1 [e H2]]];
    destruct (handleResponse trimAny st response queryString url)
      as [s [[]|e']] eqn:Er; cbn [snd] in H2; try discriminate.
  - split; [exact H1 | reflexivity].
  - unfold settlements in H1. cbn [fst] in H1.
    rewrite (handleResponse_body_exn trimAny st e' queryString url (trace s) Hw).
    unfold settlements, escaped. cbn [fst snd trace].
    rewrite filter_app, H1. cbn. eauto.
Qed.




Lemma get_opt_nullish (v : Value) (k : string) :
  nullish v = true -> get_opt v k = Undefined.
Proof. unfold get_opt. now intros ->. Qed.

(** A pure transport failure has neither status, status text source nor
    body. *)
Lemma transport_failure_parts (outcome : Value) :
  pure_transport_failure outcome ->
  httpCode_of outcome = Undefined /\ data_of outcome = Undefined.
Proof.
  intros [Hs [Hr Hd]].
  unfold httpCode_of, data_of, coalesce.
  rewrite Hs, Hd, !(get_opt_nullish _ _ Hr). auto.
Qed.

(** C6, as stated, fails.  With the logger the module starts with, [{}], a
    timeout is not rejected: [log.warn] is not a function, the [catch] block
    calls it again, and the exception escapes the classifier.  And with a
    logger, a failure value that has no string form is rejected by the
    [catch] block, with the exception of the conversion instead of a string
    form of the value. *)
Lemma transport_failure_unlogged_escapes :
  pure_transport_failure timeout_failure
  /\ settlements (handleResponse Utils.trimAny initial_state timeout_failure
                                 "" "url") = []
  /\ escaped (handleResponse Utils.trimAny initial_state timeout_failure "" "url")
     = Some (TypeError "log.warn is not a function")
  /\ pure_transport_failure unprintable_failure
  /\ settlements (handleResponse Utils.trimAny configured unprintable_failure
                                 "" "url")
     = [Reject "Unable to process data: undefined. TypeError: Cannot convert object to primitive value"].
Proof. repeat split. Qed.

(** C6 (amended).  For every pure transport failure (an outcome with no
    status, no response and no body) the classifier of a module whose logger
    has [warn] rejects and ends normally: the status is undefined, so the success test is
    false without [data.code] being read, which would throw on the undefined
    body.  The rejection carries [String(outcome)], which also goes to
    [log.warn]; should that conversion itself throw, the [catch] block
    rejects with the exception. *)
Theorem handleResponse_transport_failure :
  forall (trimAny : Value -> string -> string) (st : State)
         (outcome : Value) (queryString url : string),
    pure_transport_failure outcome ->
    has_warn (log st) = true ->
    let run := handleResponse trimAny st outcome queryString url in
    httpCode_of outcome = Undefined
    /\ (exists e, get (data_of outcome) "code" = Throw e)
    /\ success_of (httpCode_of outcome) (data_of outcome) = Normal false
    /\ escaped run = None
    /\ match ToString outcome with
       | Normal text =>
           settlements run = [Reject text]
           /\ logger_lines run
              = [LogWarn ("Request to " ++ url ++ " with data "
                          ++ reqParameters_of queryString
                          ++ " failed. details: " ++ text ++ ". Rejecting…")]
       | Throw e =>
           settlements run
           = [Reject ("Unable to process data: undefined. " ++ exn_to_string e)]
       end.
Proof.
  intros trimAny st outcome queryString url Hp Hw run.
  destruct (transport_failure_parts outcome Hp) as [Hh Hd].
  split; [exact Hh|]. split; [rewrite Hd; cbn; eauto|].
  split; [rewrite Hh; reflexivity|].
  assert (Hm : error_msg (data_of outcome) = Normal (Str "Unknown error"))
    by (rewrite Hd; reflexivity).
  assert (Hi : fameexErrorInfo_of trimAny (error_code (data_of outcome))
                                  (Str "Unknown error")
               = Normal ("[No error code] " ++ trimAny (Str "Unknown error") " ."))
    by (rewrite Hd; reflexivity).
  destruct (ToString outcome) as [text|e] eqn:Et.
  - destruct (run_rejection trimAny st outcome queryString url
                (Str "Unknown error")
                ("[No error code] " ++ trimAny (Str "Unknown error") " .") text)
      as [Htrace Hend]; try assumption.
    + rewrite Hh. discriminate.
    + unfold errorMessage_of. rewrite Hh. exact Et.
    + rewrite Hd. discriminate.
    + unfold settlements, logger_lines, escaped. subst run.
      rewrite Htrace, Hend. repeat split.
  - subst run.
    rewrite (run_catch trimAny st outcome queryString url false
               (Str "Unknown error")
               (mkStore (data_of outcome)
                        [ConsoleLog (Obj [("data", data_of outcome)])]) e);
      try assumption.
    + cbn [body trace]. rewrite Hd. repeat split.
    + rewrite Hh. reflexivity.
    + unfold try_block. run_monad. rewrite Hi. run_monad.
      unfold errorMessage_of. rewrite Hh. cbn [truthy]. rewrite Et. reflexivity.
Qed.

(** A failure to which C6 applies: a timeout, which carries no response. *)
Lemma handleResponse_transport_failure_witness :
  settlements (handleResponse Utils.trimAny configured timeout_failure "" "url")
  = [Reject "AxiosError: timeout of 10000ms exceeded"].
Proof.
  exact (proj1 (proj2 (proj2 (proj2 (proj2
    (handleResponse_transport_failure Utils.trimAny configured timeout_failure
       "" "url" (conj eq_refl (conj eq_refl eq_refl)) eq_refl)))))).
Defined.

(** C7 fails on the code.  The statements that read the body before the
    [try] block, the success test of line 64 and the table lookup of line 70,
    are not covered by the [catch]: a failed request with status 500 whose
    body holds a code without a string form throws at line 70 while the
    error is being put together, and that exception is not caught.  Nothing
    goes to the logger, nothing is rejected, and since the call was made by
    the [catch] handler of the request chain the pending result stays
    pending.  The same happens at line 64 for status 200 with the body
    [null]. *)
Theorem handleResponse_uncaught_before_try :
  forall (trimAny : Value -> string -> string) (st : State)
         (queryString url : string),
    let run := handleResponse trimAny st unprintable_code_failure queryString url in
    httpCode_of unprintable_code_failure = Num 500
    /\ trace (fst run)
       = [ConsoleLog (Obj [("data", Obj [("code", Obj [("toString", Num 1)])])])]
    /\ logger_lines run = []
    /\ settlements run = []
    /\ escaped run = Some cannot_convert
    /\ fate_of (trace (fst (settle trimAny st (Failed unprintable_code_failure)
                                   queryString url))) = StillPending
    /\ escaped (handleResponse trimAny st null_body_response queryString url)
       = Some (TypeError "Cannot read properties of undefined (reading 'code')").
Proof. intros. repeat split. Qed.

(** X20.  For every outcome whose [try] block is reached and throws, in a
    module whose logger has [warn], the exception is caught: one line goes to [log.warn], holding
    the JSON text of the body, and the pending result is rejected with
    ["Unable to process data: <JSON of the body>. <exception>"]; nothing is
    resolved and the call ends normally.  The body is the one the outcome
    carried, annotated if the throw came after the annotation. *)
Theorem handleResponse_catches :
  forall (trimAny : Value -> string -> string) (st : State)
         (outcome : Value) (queryString url : string)
         (success : bool) (msg : Value) (s' : Store) (e : Exn),
    has_warn (log st) = true ->
    success_of (httpCode_of outcome) (data_of outcome) = Normal success ->
    error_msg (data_of outcome) = Normal msg ->
    try_block trimAny st outcome (httpCode_of outcome) (httpMessage_of outcome)
             (error_code (data_of outcome)) msg success
             (reqParameters_of queryString) url
             (mkStore (data_of outcome) [ConsoleLog (Obj [("data", data_of outcome)])])
    = (s', Throw e) ->
    let run := handleResponse trimAny st outcome queryString url in
    let reason := "Unable to process data: " ++ json_text (body s') ++ ". "
                  ++ exn_to_string e in
    let line := "Error while processing response of request to " ++ url
                ++ " with data " ++ reqParameters_of queryString ++ ": "
                ++ exn_to_string e ++ ". Data object I've got: "
                ++ json_text (body s') ++ "." in
    settlements run = [Reject reason]
    /\ logger_lines run = [LogWarn line]
    /\ escaped run = None
    /\ includes reason (json_text (body s')) = true
    /\ includes reason (exn_to_string e) = true
    /\ includes line (json_text (body s')) = true
    /\ (body s' = data_of outcome
        \/ exists info,
            assign (data_of outcome) "fameexErrorInfo" (Str info) = Normal (body s')).
Proof.
  intros trimAny st outcome queryString url success msg s' e
         Hw Hs Hm Hc run reason line.
  destruct (try_block_throw_store _ _ _ _ _ _ _ _ _ _ _ _ _ _ Hc) as [Ht Hb].
  assert (I1 : includes reason (json_text (body s')) = true)
    by (subst reason; apply includes_app).
  assert (I2 : includes reason (exn_to_string e) = true).
  { subst reason.
    replace ("Unable to process data: " ++ json_text (body s') ++ ". "
             ++ exn_to_string e)
      with (("Unable to process data: " ++ json_text (body s') ++ ". ")
            ++ exn_to_string e ++ "").
    - apply includes_app.
    - now rewrite append_empty_r, !append_assoc. }
  assert (I3 : includes line (json_text (body s')) = true).
  { subst line. do 7 apply includes_skip. apply includes_here. }
  subst run.
  rewrite (run_catch trimAny st outcome queryString url success msg s' e)
    by assumption.
  rewrite Ht.
  split; [reflexivity|]. split; [reflexivity|]. split; [reflexivity|].
  repeat split; assumption.
Qed.

(** An outcome to which X20 applies: a failed request whose body is [null],
    which the annotation cannot be written to. *)
Lemma handleResponse_catches_witness :
  settlements
    (handleResponse Utils.trimAny configured null_body_failure "" "url")
  = [Reject "Unable to process data: null. TypeError: Cannot set properties of null (setting 'fameexErrorInfo')"].
Proof.
  exact (proj1
    (handleResponse_catches Utils.trimAny configured null_body_failure "" "url"
       false (Str "Unknown error")
       (mkStore Null [ConsoleLog (Obj [("data", Null)])])
       (TypeError "Cannot set properties of null (setting 'fameexErrorInfo')")
       eq_refl eq_refl eq_refl eq_refl)).
Defined.

(** C10.  Whatever the classifier resolves with for an outcome with status
    200 and an application error: when [typeof] of the body says object it is
    that body after the one assignment of [fameexErrorInfo], so every other
    property reads as before, the elements of an array are the same, and the
    keys keep their order with [fameexErrorInfo] last if it is new; when the
    body is not an object it is the body itself. *)
Theorem soft_failure_frame :
  forall (trimAny : Value -> string -> string) (st : State)
         (outcome : Value) (queryString url : string) (v : Value),
    httpCode_of outcome = Num 200 ->
    success_of (httpCode_of outcome) (data_of outcome) = Normal false ->
    In (Resolve v)
       (trace (fst (handleResponse trimAny st outcome queryString url))) ->
    let data := data_of outcome in
    (String.eqb (typeof data) "object" = true ->
     (exists info,
         assign data "fameexErrorInfo" (Str info) = Normal v
         /\ field v "fameexErrorInfo" = Str info)
     /\ (forall k, k <> "fameexErrorInfo" -> field v k = field data k)
     /\ (forall k, k <> "fameexErrorInfo" ->
                   lookup k (own_props v) = lookup k (own_props data))
     /\ elements v = elements data
     /\ typeof v = "object"
     /\ keys (own_props v)
        = if has_key "fameexErrorInfo" (own_props data)
          then keys (own_props data)
          else (keys (own_props data) ++ ["fameexErrorInfo"])%list)
    /\ (String.eqb (typeof data) "object" = false -> v = data).
Proof.
  intros trimAny st outcome queryString url v Hh Hs Hin data.
  assert (Hne : success_of (httpCode_of outcome) (data_of outcome) <> Normal true)
    by (rewrite Hs; discriminate).
  destruct (failure_resolves_inv trimAny st outcome queryString url v Hne Hin)
    as [_ Hv].
  fold data in Hv. split; intro Ht.
  - destruct Hv as [[Hf _] | [info Ha]]; [congruence|].
    split; [exists info; split; [exact Ha|]|].
    + apply (field_assign_same _ _ _ _ Ha Ht); discriminate.
    + split; [intros k Hk; exact (field_assign_other _ _ _ _ k Ha Hk)|].
      destruct data; cbn in Ht; try discriminate; cbn in Ha; try discriminate;
        injection Ha as <-; cbn [own_props elements typeof];
        (split; [intros k Hk; now apply lookup_store_other|]);
        (split; [reflexivity|]); (split; [reflexivity|]); apply keys_store.
  - destruct Hv as [[_ Hv] | [info Ha]]; [exact Hv|].
    destruct data; cbn in Ht; try discriminate; cbn in Ha; try discriminate;
      now injection Ha as <-.
Qed.

(** An outcome to which C10 applies: the signature error of the
    specification. *)
Lemma soft_failure_frame_witness :
  field (Obj [("code", Num 112015); ("msg", Str "bad sig");
              ("fameexErrorInfo", Str "[112015] Signature error")]) "msg"
  = field (data_of signature_error_outcome) "msg".
Proof.
  exact (proj1 (proj2 (proj1
    (soft_failure_frame Utils.trimAny configured signature_error_outcome
       "" "url"
       (Obj [("code", Num 112015); ("msg", Str "bad sig");
             ("fameexErrorInfo", Str "[112015] Signature error")])
       eq_refl eq_refl (or_intror (or_intror (or_introl eq_refl)))) eq_refl))
    "msg" ltac:(discriminate)).
Defined.

(* ================================================================== *)
(** ** The specification of signing, dispatch and configuration *)
(* ================================================================== *)

Lemma all_chars_app (p : ascii -> bool) (a b : string) :
  all_chars p (a ++ b) = (all_chars p a && all_chars p b)%bool.
Proof.
  induction a as [|x a IH]; cbn; [reflexivity|].
  now rewrite IH, andb_assoc.
Qed.

Lemma length_app_string (a b : string) :
  String.length (a ++ b) = (String.length a + String.length b)%nat.
Proof. induction a as [|x a IH]; cbn; [reflexivity | now rewrite IH]. Qed.

Lemma concat_empty_cons (x : string) (xs : list string) :
  String.concat "" (x :: xs) = x ++ String.concat "" xs.
Proof. destruct xs; cbn; [now rewrite append_empty_r | reflexivity]. Qed.

Lemma hex_digit_lower (n : nat) : is_lower_hex (hex_digit n) = true.
Proof. do 16 (destruct n as [|n]; [reflexivity|]). now destruct n. Qed.

(** The hexadecimal encoding has two lowercase digits per byte. *)
Lemma hex_shape (bs : list Z) :
  String.length (Crypto.hex bs) = (2 * List.length bs)%nat
  /\ all_chars is_lower_hex (Crypto.hex bs) = true.
Proof.
  unfold Crypto.hex. induction bs as [|b bs [IHl IHc]]; [split; reflexivity|].
  cbn [map]. rewrite concat_empty_cons, length_app_string, all_chars_app, IHl, IHc.
  split.
  - cbn [Crypto.hex_of_byte String.length List.length]. lia.
  - unfold Crypto.hex_of_byte. cbn [all_chars]. now rewrite !hex_digit_lower.
Qed.

(** A SHA-256 digest has 32 bytes. *)
Lemma sha256_length (msg : list Z) : List.length (Crypto.sha256 msg) = 32%nat.
Proof. unfold Crypto.sha256. cbv zeta. reflexivity. Qed.

Lemma upper_char_not_lower (c : ascii) : is_lower_letter (upper_char c) = false.
Proof.
  destruct c as [b0 b1 b2 b3 b4 b5 b6 b7].
  destruct b0, b1, b2, b3, b4, b5, b6, b7; reflexivity.
Qed.

Lemma toUpperCase_no_lower (s : string) :
  all_chars (fun c => negb (is_lower_letter c)) (toUpperCase s) = true.
Proof.
  induction s as [|c s IH]; cbn [toUpperCase all_chars]; [reflexivity|].
  now rewrite upper_char_not_lower, IH.
Qed.

(** The payload handed to the signer always has a text: the JSON string, or
    ["undefined"] where [JSON.stringify] gave none, or the empty string. *)
Lemma signed_payload_text (st : State) (now : Z) (type path : string) (data : Value) :
  ToString (sig_payload (signatureInput st now type path (json_value data)))
  = Normal (if String.eqb type "post" then json_text data else "").
Proof.
  unfold signatureInput, json_value, json_text. cbn [sig_payload].
  destruct (String.eqb type "post"); [|reflexivity].
  now destruct (JSON_stringify data).
Qed.

(** C2.  For every secret, millisecond timestamp, method, path and payload
    held in strings, [getSignature] returns the lowercase hexadecimal
    HMAC-SHA256, keyed by the secret, of the timestamp in decimal, the method,
    the path and the payload, in that order and with nothing between them: 64
    characters among [0-9a-f].  [protectedRequest] calls it with the request
    type in upper case, which holds no lowercase letter. *)
Theorem getSignature_is_hmac_sha256 :
  forall (secret : string) (timestampMillis : Z) (method path payload : string),
    getSignature (Str secret) timestampMillis method path (Str payload)
    = Normal (sign_spec secret timestampMillis method path payload)
    /\ String.length (sign_spec secret timestampMillis method path payload) = 64%nat
    /\ all_chars is_lower_hex
         (sign_spec secret timestampMillis method path payload) = true
    /\ (forall (st : State) (type : string) (data : Value),
          secret_key (config st) = Str secret ->
          sign (signatureInput st timestampMillis type path (json_value data))
          = Normal (sign_spec secret timestampMillis (toUpperCase type) path
                              (if String.eqb type "post"
                               then json_text data else ""))
          /\ all_chars (fun c => negb (is_lower_letter c)) (toUpperCase type)
             = true).
Proof.
  intros secret timestampMillis method path payload.
  assert (Hsig : forall m p,
             getSignature (Str secret) timestampMillis m path (Str p)
             = Normal (sign_spec secret timestampMillis m path p)).
  { intros m p. unfold getSignature, sign_spec, Crypto.digest_hex, Crypto.update.
    cbn [Crypto.createHmac String.eqb Ascii.eqb Bool.eqb negb cbind ToString
         Crypto.hmac_key Crypto.hmac_data Crypto.hmac_algorithm append].
    now rewrite !concat_empty_cons, append_empty_r. }
  split; [apply Hsig|].
  destruct (hex_shape
              (Crypto.hmac Crypto.sha256 (Crypto.bytes_of_string secret)
                 (Crypto.bytes_of_string
                    (String.concat "" [decimal timestampMillis; method; path; payload]))))
    as [Hl Hc].
  split; [|split; [exact Hc|]].
  - unfold sign_spec. rewrite Hl. unfold Crypto.hmac. now rewrite sha256_length.
  - intros st type data Hsecret. split; [|apply toUpperCase_no_lower].
    unfold sign.
    pose proof (signed_payload_text st timestampMillis type path data) as Hp.
    unfold signatureInput in *. cbn [sig_secret sig_timestamp sig_method sig_path sig_payload] in *.
    rewrite Hsecret.
    unfold getSignature in *. rewrite Hp.
    specialize (Hsig (toUpperCase type)
                     (if String.eqb type "post" then json_text data else "")).
    cbn [ToString] in Hsig. exact Hsig.
Qed.

(** The model of the digest agrees with the published test vectors: SHA-256
    of ["abc"] (FIPS 180-4) and the second HMAC-SHA256 case of RFC 4231. *)
Example sha256_abc :
  Crypto.hex (Crypto.sha256 (Crypto.bytes_of_string "abc"))
  = "ba7816bf8f01cfea414140de5dae2223b00361a396177a9cb410ff61f20015ad".
Proof. vm_compute. reflexivity. Qed.

Example hmac_sha256_rfc4231 :
  Crypto.digest_hex
    (Crypto.update (Crypto.mkHmac "sha256" "Jefe" "") "what do ya want for nothing?")
  = "5bdcc146bf60754e6a042426089575c75a003f089d2739839dec58b964ec3843".
Proof. vm_compute. reflexivity. Qed.

(** C8.  For every private request of type [post] that is handed to the HTTP
    client, the payload given to the signer and the [data] of the request
    options are one and the same value, the result of the single
    [JSON.stringify(data)]: the same string whenever the parameters serialize
    to one.  No [params] are set, and the [Signature] header is the signature
    of that input. *)
Theorem post_body_is_signed_payload :
  forall (getParamsString : Value -> string) (st : State) (now : Z)
         (path : string) (data : Value) (req : PreparedRequest),
    protectedRequest getParamsString st now "post" path data = Normal req ->
    exists input : SignatureInput,
      req_signed req = Some input
      /\ opt_data (req_options req) = Some (sig_payload input)
      /\ sig_payload input = json_value data
      /\ (forall s, JSON_stringify data = Some s ->
                    sig_payload input = Str s
                    /\ opt_data (req_options req) = Some (Str s))
      /\ opt_params (req_options req) = None
      /\ sig_method input = "POST"
      /\ exists signature,
          sign input = Normal signature
          /\ lookup "Signature" (opt_headers (req_options req))
             = Some (Str signature).
Proof.
  intros getParamsString st now path data req H.
  unfold protectedRequest in H.
  destruct (url_of st path) as [url|e]; cbn [cbind] in H; [|discriminate].
  destruct (sign (signatureInput st now "post" path (json_value data)))
    as [signature|e] eqn:Es; cbn [cbind] in H; [|discriminate].
  injection H as <-.
  exists (signatureInput st now "post" path (json_value data)).
  cbn [req_signed req_options String.eqb Ascii.eqb Bool.eqb opt_data opt_params
       opt_headers].
  split; [reflexivity|]. split; [reflexivity|]. split; [reflexivity|].
  split; [|split; [reflexivity|split; [reflexivity|]]].
  - intros s Hjson. unfold signatureInput, json_value.
    cbn [sig_payload String.eqb Ascii.eqb Bool.eqb]. rewrite Hjson. split; reflexivity.
  - exists signature. split; [exact Es | reflexivity].
Qed.

(** A request to which C8 applies: an order placed through the configured
    module. *)
Lemma post_body_is_signed_payload_witness :
  exists input : SignatureInput,
    sig_payload input
    = Str (String.concat ""
             ["{"; dquote; "symbol"; dquote; ":"; dquote; "BTC-USDT"; dquote;
              ","; dquote; "side"; dquote; ":1}"])
    /\ sig_payload input
       = json_value (Obj [("symbol", Str "BTC-USDT"); ("side", Num 1)]).
Proof.
  destruct (post_body_is_signed_payload (fun _ => "symbol=BTC-USDT&side=1")
              configured 1700000000000 "/v1/api/spot/orders"
              (Obj [("symbol", Str "BTC-USDT"); ("side", Num 1)])
              _ eq_refl)
    as [input [_ [_ [Hp [Hs _]]]]].
  exists input. split; [|exact Hp].
  exact (proj1 (Hs _ eq_refl)).
Defined.

(** C9.  For every configuration call: with a truthy public-only flag the
    credentials stay as they were, otherwise they become the three arguments;
    whatever the flag, the base URL becomes the override when that is truthy
    and stays otherwise, and the logger becomes the one supplied and stays
    when none is.  The module state has no other part. *)
Theorem setConfig_frame :
  forall (s : State) (apiServer apiKey secretKey tradePwd : Value)
         (logger : option Logger) (publicOnly : Value),
    let s' := setConfig s apiServer apiKey secretKey tradePwd logger publicOnly in
    (truthy publicOnly = true -> config s' = config s)
    /\ (truthy publicOnly = false ->
        config s' = mkCredentials apiKey secretKey tradePwd)
    /\ WEB_BASE s' = (if truthy apiServer then apiServer else WEB_BASE s)
    /\ log s' = match logger with Some l => l | None => log s end
    /\ s' = mkState (if truthy apiServer then apiServer else WEB_BASE s)
                    (if truthy publicOnly then config s
                     else mkCredentials apiKey secretKey tradePwd)
                    (match logger with Some l => l | None => log s end).
Proof.
  intros s apiServer apiKey secretKey tradePwd logger publicOnly s'.
  subst s'. unfold setConfig.
  destruct s as [base creds lg].
  destruct (truthy apiServer), logger as [l|], (truthy publicOnly);
    cbn; repeat split; intros; try discriminate; reflexivity.
Qed.

(* ================================================================== *)
(** ** Further properties of the classifier *)
(* ================================================================== *)

(** Case analysis on a run of the failure branch of the [try] block and of
    the [catch] block behind it. *)
Ltac failure_cases trimAny st d :=
  unfold try_block, log_log, log_warn; run_monad;
  repeat match goal with
         | |- context [match fameexErrorInfo_of ?t ?c ?m with _ => _ end] =>
             destruct (fameexErrorInfo_of t c m) eqn:?; run_monad
         | |- context [match errorMessage_of ?o ?h ?m ?i with _ => _ end] =>
             destruct (errorMessage_of o h m i) eqn:?; run_monad
         | |- context [match assign d ?k ?x with _ => _ end] =>
             destruct (assign d k x) eqn:?; run_monad
         | |- context [match ToString ?m with _ => _ end] =>
             destruct (ToString m) eqn:?; run_monad
         | |- context [if String.eqb (typeof d) "object" then _ else _] =>
             destruct (String.eqb (typeof d) "object") eqn:?; run_monad
         | |- context [if is_num ?h statusCodes_ok then _ else _] =>
             destruct (is_num h statusCodes_ok) eqn:?; run_monad
         | |- context [if has_log ?l then _ else _] =>
             destruct (has_log l) eqn:?; run_monad
         | |- context [if has_warn ?l then _ else _] =>
             destruct (has_warn l) eqn:?; run_monad
         end.

(** X1.  A call of the classifier never settles the pending result twice,
    whatever the outcome and the logger: it calls [resolve] or [reject] at
    most once, and exactly once precisely when no exception escapes it. *)
Theorem handleResponse_never_settles_twice :
  forall (trimAny : Value -> string -> string) (st : State)
         (outcome : Value) (queryString url : string),
    let run := handleResponse trimAny st outcome queryString url in
    (List.length (settlements run) <= 1)%nat
    /\ (List.length (settlements run) = 1%nat <-> escaped run = None).
Proof.
  intros trimAny st outcome queryString url run. subst run.
  destruct (handleResponse_settles_at_most_once trimAny st outcome
              queryString url) as [[[ev Hs] Hn] | [Hs [e He]]];
    unfold escaped; rewrite Hs.
  - rewrite Hn. cbn. split; [lia | tauto].
  - rewrite He. cbn. split; [lia|]. split; [lia | discriminate].
Qed.

(** X3.  The classifier resolves only for HTTP status 200: whatever it
    resolves with, and whatever the body and the logger, the status of the
    outcome is the number 200.  An outcome with any other status, or none, is
    never resolved. *)
Theorem resolve_only_on_status_200 :
  forall (trimAny : Value -> string -> string) (st : State)
         (outcome : Value) (queryString url : string) (v : Value),
    In (Resolve v)
       (trace (fst (handleResponse trimAny st outcome queryString url))) ->
    httpCode_of outcome = Num 200.
Proof.
  intros trimAny st outcome queryString url v Hin.
  destruct (success_of (httpCode_of outcome) (data_of outcome))
    as [[|]|e] eqn:Es.
  - now apply success_of_true in Es.
  - apply (failure_resolves_inv trimAny st outcome queryString url v);
      [rewrite Es; discriminate | exact Hin].
  - apply (failure_resolves_inv trimAny st outcome queryString url v);
      [rewrite Es; discriminate | exact Hin].
Qed.

(** A resolution to which X3 applies: the signature error, status 200. *)
Lemma resolve_only_on_status_200_witness :
  httpCode_of signature_error_outcome = Num 200.
Proof.
  exact (resolve_only_on_status_200 Utils.trimAny configured
           signature_error_outcome "" "url"
           (Obj [("code", Num 112015); ("msg", Str "bad sig");
                 ("fameexErrorInfo", Str "[112015] Signature error")])
           (or_intror (or_intror (or_introl eq_refl)))).
Defined.

(** X4.  The only thing a call ever does to the body it was given is the one
    assignment of [fameexErrorInfo]: when the call is over, whether it
    settled or threw, the body is as it came or as that assignment leaves it;
    a successful outcome and a body that [typeof] does not call an object are
    left as they came. *)
Theorem handleResponse_touches_one_field :
  forall (trimAny : Value -> string -> string) (st : State)
         (outcome : Value) (queryString url : string),
    let run := handleResponse trimAny st outcome queryString url in
    let data := data_of outcome in
    (body (fst run) = data
     \/ exists info, assign data "fameexErrorInfo" (Str info)
                     = Normal (body (fst run)))
    /\ (success_of (httpCode_of outcome) data = Normal true ->
        body (fst run) = data)
    /\ (String.eqb (typeof data) "object" = false -> body (fst run) = data).
Proof.
  intros trimAny st outcome queryString url run data.
  assert (Hsucc : success_of (httpCode_of outcome) data = Normal true ->
                  body (fst run) = data).
  { intro Hs. subst run. now rewrite (run_success trimAny st outcome _ _ Hs). }
  assert (Hmain : (body (fst run) = data /\ True)
                  \/ (String.eqb (typeof data) "object" = true
                      /\ exists info, assign data "fameexErrorInfo" (Str info)
                                      = Normal (body (fst run)))).
  { subst run data.
    unfold handleResponse, handleResponse_body. run_monad.
    destruct (success_of _ _) as [success|e]; run_monad; [|left; auto].
    destruct (error_msg _) as [msg|e]; run_monad; [|left; auto].
    cbn [app]. unfold catch_block.
    destruct success.
    - unfold try_block, log_warn. run_monad.
      destruct (get (data_of outcome) "data"); run_monad; [left; auto|].
      destruct (has_warn (log st)); run_monad; left; auto.
    - unfold try_block, log_log, log_warn. run_monad.
      destruct (fameexErrorInfo_of _ _ _) as [info|e]; run_monad.
      2:{ destruct (has_warn (log st)); run_monad; left; auto. }
      destruct (errorMessage_of _ _ _ _) as [text|e]; run_monad.
      2:{ destruct (has_warn (log st)); run_monad; left; auto. }
      destruct (String.eqb (typeof (data_of outcome)) "object") eqn:Et; run_monad.
      + destruct (assign (data_of outcome) "fameexErrorInfo" (Str info))
          as [annotated|e] eqn:Ea; run_monad.
        2:{ destruct (has_warn (log st)); run_monad; left; auto. }
        destruct (is_num (httpCode_of outcome) statusCodes_ok); run_monad;
          [destruct (ToString msg); run_monad|];
          destruct (has_log (log st)); run_monad;
          destruct (has_warn (log st)); run_monad;
          right; (split; [reflexivity | exists info; exact Ea]).
      + destruct (is_num (httpCode_of outcome) statusCodes_ok); run_monad;
          [destruct (ToString msg); run_monad|];
          destruct (has_log (log st)); run_monad;
          destruct (has_warn (log st)); run_monad; left; auto. }
  split; [|split; [exact Hsucc|]].
  - destruct Hmain as [[H _] | [_ H]]; auto.
  - intro Ht. destruct Hmain as [[H _] | [Ht' _]]; [exact H | congruence].
Qed.

(** X5.  A call that ends normally leaves one of three traces, each after
    the [console.log] of the body: a bare [resolve] (success, which alone is
    silent), a [log.log] line followed by a [resolve] (status 200 with an
    application error), or a [log.warn] line followed by a [reject].  So every
    rejection is announced by exactly one warning, every annotated resolution
    by exactly one informational line, and the settlement is the last thing
    the call does. *)
Theorem handleResponse_normal_traces :
  forall (trimAny : Value -> string -> string) (st : State)
         (outcome : Value) (queryString url : string),
    snd (handleResponse trimAny st outcome queryString url) = Normal tt ->
    let run := handleResponse trimAny st outcome queryString url in
    let shown := ConsoleLog (Obj [("data", data_of outcome)]) in
    (success_of (httpCode_of outcome) (data_of outcome) = Normal true
     /\ trace (fst run) = [shown; Resolve (field (data_of outcome) "data")])
    \/ (success_of (httpCode_of outcome) (data_of outcome) = Normal false
        /\ ((exists line, trace (fst run)
                          = [shown; LogLog line; Resolve (body (fst run))])
            \/ (exists line reason,
                   trace (fst run) = [shown; LogWarn line; Reject reason]))).
Proof.
  intros trimAny st outcome queryString url Hend run shown.
  destruct (success_of (httpCode_of outcome) (data_of outcome))
    as [[|]|e] eqn:Es.
  - left. split; [reflexivity|]. subst run.
    now rewrite (run_success trimAny st outcome _ _ Es).
  - right. split; [reflexivity|]. subst run shown. revert Hend.
    unfold handleResponse, handleResponse_body. run_monad.
    rewrite Es. run_monad.
    destruct (error_msg _) as [msg|e]; run_monad; [|discriminate].
    cbn [app]. unfold catch_block.
    failure_cases trimAny st (data_of outcome);
      intro Hend; try discriminate; cbn [app]; eauto.
  - exfalso. revert Hend.
    unfold handleResponse, handleResponse_body. run_monad.
    rewrite Es. run_monad. discriminate.
Qed.

(** An outcome to which X5 applies: the restricted IP, which is rejected
    after one warning. *)
Lemma handleResponse_normal_traces_witness :
  exists line reason,
    trace (fst (handleResponse Utils.trimAny configured ip_restricted_outcome
                               "" "url"))
    = [ConsoleLog (Obj [("data", data_of ip_restricted_outcome)]);
       LogWarn line; Reject reason].
Proof.
  destruct (handleResponse_normal_traces Utils.trimAny configured
              ip_restricted_outcome "" "url" eq_refl)
    as [[H _] | [_ [[line H] | H]]].
  - discriminate H.
  - discriminate H.
  - exact H.
Defined.

(** X6.  With a logger that has neither [log] nor [warn], as the [{}] the
    module starts with, no outcome other than a success is ever settled: the
    call of the missing method throws inside the [try] block, the [catch]
    block throws again on [log.warn], and the exception escapes the
    classifier with neither [resolve] nor [reject] called.  In the request
    chain the [catch] handler then fails the same way, so the pending result
    stays pending. *)
Theorem handleResponse_without_logger :
  forall (trimAny : Value -> string -> string) (st : State)
         (outcome : Value) (queryString url : string),
    has_log (log st) = false ->
    has_warn (log st) = false ->
    success_of (httpCode_of outcome) (data_of outcome) <> Normal true ->
    let run := handleResponse trimAny st outcome queryString url in
    settlements run = []
    /\ (exists e, escaped run = Some e)
    /\ fate_of (trace (fst (settle trimAny st (Fulfilled outcome) queryString url)))
       = StillPending
    /\ fate_of (trace (fst (settle trimAny st (Failed outcome) queryString url)))
       = StillPending.
Proof.
  intros trimAny st outcome queryString url Hl Hw Hs run.
  assert (Hrun : exists s e,
             run = (s, Throw e)
             /\ (trace s = [] \/ trace s = [ConsoleLog (Obj [("data", data_of outcome)])])).
  { subst run. unfold handleResponse, handleResponse_body. run_monad.
    destruct (success_of _ _) as [[|]|e]; [contradiction | | run_monad; eauto].
    run_monad. destruct (error_msg _) as [msg|e]; run_monad; [|eauto].
    cbn [app]. unfold catch_block.
    failure_cases trimAny st (data_of outcome); try congruence; eauto. }
  destruct Hrun as [s [e [Hrun Ht]]].
  assert (Hfate : fate_of (trace s) = StillPending)
    by (destruct Ht as [-> | ->]; reflexivity).
  assert (Hset : filter is_settlement (trace s) = [])
    by (destruct Ht as [-> | ->]; reflexivity).
  split; [rewrite Hrun; exact Hset|].
  split; [rewrite Hrun; exists e; reflexivity|].
  split.
  - unfold settle. fold run. rewrite Hrun.
    unfold handleResponse_body. run_monad.
    change (data_of (exn_value e)) with Undefined.
    change (httpCode_of (exn_value e)) with Undefined.
    change (success_of Undefined Undefined) with (@Normal bool false).
    change (error_msg Undefined) with (Normal (Str "Unknown error")).
    run_monad. unfold catch_block.
    failure_cases trimAny st Undefined; try congruence; cbn [fst trace];
      destruct Ht as [-> | ->]; reflexivity.
  - unfold settle. fold run. rewrite Hrun. exact Hfate.
Qed.

(** An outcome to which X6 applies: the restricted IP, classified by the
    module before any configuration. *)
Lemma handleResponse_without_logger_witness :
  settlements (handleResponse Utils.trimAny initial_state ip_restricted_outcome
                              "" "url") = [].
Proof.
  exact (proj1 (handleResponse_without_logger Utils.trimAny initial_state
                  ip_restricted_outcome "" "url" eq_refl eq_refl
                  ltac:(discriminate))).
Defined.

(** X7.  The classifier reads nothing of the module state but the two
    methods of the logger: two states whose loggers agree on having [log] and
    on having [warn] classify every outcome alike, whatever their base URL
    and credentials. *)
Theorem handleResponse_reads_only_logger :
  forall (trimAny : Value -> string -> string) (s1 s2 : State)
         (outcome : Value) (queryString url : string),
    same_logger_methods s1 s2 ->
    handleResponse trimAny s1 outcome queryString url
    = handleResponse trimAny s2 outcome queryString url.
Proof.
  intros trimAny s1 s2 outcome queryString url [Hl Hw].
  unfold handleResponse, handleResponse_body, try_block, catch_block,
    log_log, log_warn.
  now rewrite Hl, Hw.
Qed.

(** Two states to which X7 applies: the configured module and one with
    other credentials and another base URL. *)
Lemma handleResponse_reads_only_logger_witness :
  handleResponse Utils.trimAny configured ip_restricted_outcome "" "url"
  = handleResponse Utils.trimAny
      (setConfig configured (Str "https://other.example") (Str "k2") (Str "s2")
                 (Str "p2") None Undefined)
      ip_restricted_outcome "" "url".
Proof.
  exact (handleResponse_reads_only_logger Utils.trimAny configured _
           ip_restricted_outcome "" "url" (conj eq_refl eq_refl)).
Defined.

(** X8.  The description of a known error code always wins over the message
    of the body: whenever the code of the body, converted to a property key,
    is one of the fourteen keys of [httpErrorCodeDescriptions], the message
    of the error is the description under that key, whatever [body.msg]
    holds.  Only the key counts, so the number 112015, the string ["112015"]
    and the array [[112015]] all give ["Signature error"]. *)
Theorem known_code_description_wins :
  forall (data description : Value) (key : string),
    ToString (get_opt data "code") = Normal key ->
    lookup key httpErrorCodeDescriptions = Some description ->
    error_msg data = Normal description
    /\ (exists text, description = Str text)
    /\ forall (rest : list (string * Value)),
         error_msg (Obj (("code", Num 112015) :: rest))
         = Normal (Str "Signature error")
         /\ error_msg (Obj (("code", Str "112015") :: rest))
            = Normal (Str "Signature error")
         /\ error_msg (Obj (("code", Arr [Num 112015] []) :: rest))
            = Normal (Str "Signature error").
Proof.
  intros data description key Hk Hd.
  assert (Hstr : exists text, description = Str text).
  { revert Hd. unfold httpErrorCodeDescriptions. cbn [lookup].
    repeat match goal with
           | |- context [String.eqb key ?k] => destruct (String.eqb key k)
           end;
      intro H; try discriminate; injection H as <-; eauto. }
  split; [|split; [exact Hstr|]].
  - unfold error_msg, description_of. rewrite Hk. cbn [cbind]. rewrite Hd.
    destruct Hstr as [text ->]. reflexivity.
  - intro rest. repeat split.
Qed.

(** A body to which X8 applies: a signature error that brings a message of
    its own. *)
Lemma known_code_description_wins_witness :
  error_msg (data_of signature_error_outcome) = Normal (Str "Signature error").
Proof.
  exact (proj1 (known_code_description_wins (data_of signature_error_outcome)
                  (Str "Signature error") "112015" eq_refl eq_refl)).
Defined.

(** A fulfilled request to which the exactly-once property of the request
    chain applies: the response with a [null] body, which the second call of
    the classifier rejects. *)
Lemma settle_fulfilled_once_witness :
  exists ev,
    settlements (settle Utils.trimAny configured (Fulfilled null_body_response)
                        "" "url") = [ev].
Proof.
  exact (proj1 (settle_fulfilled_once Utils.trimAny configured
                  null_body_response "" "url" eq_refl)).
Defined.

(* ================================================================== *)
(** ** Further properties of signing and dispatch *)
(* ================================================================== *)

(** The signature [protectedRequest] computes, when the secret is held in a
    string. *)
Lemma sign_of_input (st : State) (now : Z) (type path : string) (data : Value)
      (secret : string) :
  secret_key (config st) = Str secret ->
  sign (signatureInput st now type path (json_value data))
  = Normal (sign_spec secret now (toUpperCase type) path
                      (if String.eqb type "post" then json_text data else "")).
Proof.
  intro Hsecret.
  pose proof (signed_payload_text st now type path data) as Hp.
  unfold sign, signatureInput in *.
  cbn [sig_secret sig_timestamp sig_method sig_path sig_payload] in *.
  rewrite Hsecret. unfold getSignature. rewrite Hp.
  unfold sign_spec, Crypto.digest_hex, Crypto.update.
  cbn [Crypto.createHmac String.eqb Ascii.eqb Bool.eqb negb cbind
       Crypto.hmac_key Crypto.hmac_data Crypto.hmac_algorithm append].
  now rewrite !concat_empty_cons, append_empty_r.
Qed.

(** A secret that is not a string is refused by [crypto.createHmac]. *)
Lemma sign_refuses (st : State) (now : Z) (type path : string) (payload : Value) :
  (forall secret, secret_key (config st) <> Str secret) ->
  exists e, sign (signatureInput st now type path payload) = Throw e.
Proof.
  intro H. unfold sign, signatureInput, getSignature.
  cbn [sig_secret sig_timestamp sig_method sig_path sig_payload].
  destruct (secret_key (config st)) as [| |b|n|s|items ps|ps|n m ps|f] eqn:E;
    try (exfalso; now apply (H s));
    cbn [Crypto.createHmac String.eqb Ascii.eqb Bool.eqb negb cbind]; eauto.
Qed.

(** When a private request is prepared. *)
Lemma protectedRequest_prepares_iff_aux
      (getParamsString : Value -> string) (st : State) (now : Z)
      (type path : string) (data : Value) :
  (exists req,
      protectedRequest getParamsString st now type path data = Normal req)
  <-> ((exists base, ToString (WEB_BASE st) = Normal base)
       /\ (exists secret, secret_key (config st) = Str secret)).
Proof.
  unfold protectedRequest, url_of. split.
  - intros [req H].
    destruct (ToString (WEB_BASE st)) as [base|e]; cbn [cbind] in H;
      [|discriminate].
    split; [eauto|].
    destruct (secret_key (config st)) as [| |b|n|s|items ps|ps|n m ps|f] eqn:E;
      try (exfalso;
           destruct (sign_refuses st now type path (json_value data)) as [e He];
           [intros secret Hs; rewrite E in Hs; discriminate
           | rewrite He in H; discriminate]).
    eauto.
  - intros [[base Hb] [secret Hs]].
    rewrite Hb. cbn [cbind].
    rewrite (sign_of_input st now type path data secret Hs). cbn [cbind]. eauto.
Qed.

(** X9.  A private request is prepared exactly when the base URL converts
    to a string and the stored secret key is a string; otherwise
    [protectedRequest] throws before any request is made, so a module
    configured with a secret that is undefined, a number or an object cannot
    make any private call. *)
Theorem protectedRequest_prepares_iff :
  forall (getParamsString : Value -> string) (st : State) (now : Z)
         (type path : string) (data : Value),
    ((exists req,
         protectedRequest getParamsString st now type path data = Normal req)
     <-> ((exists base, ToString (WEB_BASE st) = Normal base)
          /\ (exists secret, secret_key (config st) = Str secret)))
    /\ ((forall secret, secret_key (config st) <> Str secret) ->
        exists e,
          protectedRequest getParamsString st now type path data = Throw e).
Proof.
  intros getParamsString st now type path data.
  split; [apply protectedRequest_prepares_iff_aux|].
  intro Hno.
  destruct (protectedRequest getParamsString st now type path data)
    as [req|e] eqn:E; [|eauto].
  exfalso.
  destruct (proj1 (protectedRequest_prepares_iff_aux getParamsString st now
                     type path data) (ex_intro _ req E)) as [_ [secret Hs]].
  exact (Hno secret Hs).
Qed.

(** X10.  Everything the signature covers travels with the request: for
    every prepared private request the [Signature] header is the
    HMAC-SHA256, under the key sent in the [SecretKey] header, of the number
    sent in the [Timestamp] header, the method of the request in upper case,
    the path (the URL without the base) and the text of the [data] of the
    request, or nothing when there is no [data]. *)
Theorem signature_covers_what_is_sent :
  forall (getParamsString : Value -> string) (st : State) (now : Z)
         (type path : string) (data : Value) (req : PreparedRequest),
    protectedRequest getParamsString st now type path data = Normal req ->
    let options := req_options req in
    exists (base secret payload : string),
      ToString (WEB_BASE st) = Normal base
      /\ opt_url options = base ++ path
      /\ opt_method options = type
      /\ lookup "AccessKey" (opt_headers options) = Some (apiKey (config st))
      /\ lookup "SecretKey" (opt_headers options) = Some (Str secret)
      /\ lookup "Timestamp" (opt_headers options) = Some (Num now)
      /\ match opt_data options with
         | Some v => ToString v = Normal payload
         | None => payload = ""
         end
      /\ lookup "Signature" (opt_headers options)
         = Some (Str (sign_spec secret now (toUpperCase (opt_method options))
                                path payload)).
Proof.
  intros getParamsString st now type path data req H options.
  destruct (proj1 (protectedRequest_prepares_iff_aux getParamsString st now
                     type path data) (ex_intro _ req H))
    as [[base Hb] [secret Hs]].
  subst options. revert H. unfold protectedRequest, url_of.
  rewrite Hb. cbn [cbind].
  rewrite (sign_of_input st now type path data secret Hs). cbn [cbind].
  intro H. injection H as <-.
  exists base, secret, (if String.eqb type "post" then json_text data else "").
  destruct (String.eqb type "post") eqn:Et;
    cbn [req_options opt_url opt_method opt_headers opt_data lookup
         String.eqb Ascii.eqb Bool.eqb sig_timestamp signatureInput];
    rewrite Hs; repeat split.
  unfold json_value, json_text. now destruct (JSON_stringify data).
Qed.

(** A request to which X10 applies: an order detail request of the
    configured module. *)
Lemma signature_covers_what_is_sent_witness :
  exists req,
    protectedRequest (fun _ => "") configured 1700000000000 "post"
                     "/v1/api/spot/orderdetail"
                     (Obj [("symbol", Str "BTC-USDT")]) = Normal req
    /\ lookup "Timestamp" (opt_headers (req_options req))
       = Some (Num 1700000000000).
Proof.
  destruct (proj2 (protectedRequest_prepares_iff_aux (fun _ => "") configured
                     1700000000000 "post" "/v1/api/spot/orderdetail"
                     (Obj [("symbol", Str "BTC-USDT")]))
             (conj (ex_intro _ _ eq_refl) (ex_intro _ _ eq_refl)))
    as [req Hreq].
  exists req. split; [exact Hreq|].
  destruct (signature_covers_what_is_sent (fun _ => "") configured
              1700000000000 "post" "/v1/api/spot/orderdetail"
              (Obj [("symbol", Str "BTC-USDT")]) req Hreq)
    as [base [secret [payload [_ [_ [_ [_ [_ [Ht _]]]]]]]]].
  exact Ht.
Defined.

(** X11.  For a request type other than [post] the parameters are not
    signed: they travel as [params], no body is set, and two requests of the
    same type and path made at the same time carry the same [Signature]
    whatever their parameters. *)
Theorem unsigned_parameters :
  forall (getParamsString : Value -> string) (st : State) (now : Z)
         (type path : string) (data1 data2 : Value) (req1 req2 : PreparedRequest),
    String.eqb type "post" = false ->
    protectedRequest getParamsString st now type path data1 = Normal req1 ->
    protectedRequest getParamsString st now type path data2 = Normal req2 ->
    opt_headers (req_options req1) = opt_headers (req_options req2)
    /\ opt_data (req_options req1) = None
    /\ opt_params (req_options req1) = Some data1
    /\ opt_params (req_options req2) = Some data2
    /\ exists input,
        req_signed req1 = Some input /\ req_signed req2 = Some input
        /\ sig_payload input = Str "".
Proof.
  intros getParamsString st now type path data1 data2 req1 req2 Ht H1 H2.
  destruct (proj1 (protectedRequest_prepares_iff_aux getParamsString st now
                     type path data1) (ex_intro _ req1 H1))
    as [[base Hb] [secret Hs]].
  revert H1 H2. unfold protectedRequest, url_of. rewrite Hb. cbn [cbind].
  rewrite (sign_of_input st now type path data1 secret Hs),
          (sign_of_input st now type path data2 secret Hs), Ht.
  cbn [cbind]. intros H1 H2. injection H1 as <-. injection H2 as <-.
  cbn [req_options req_signed opt_headers opt_data opt_params].
  unfold signatureInput. rewrite Ht.
  repeat split. eexists. repeat split.
Qed.

(** Two requests to which X11 applies: the wallet read with two different
    parameter objects. *)
Lemma unsigned_parameters_witness :
  exists req1 req2,
    protectedRequest (fun _ => "") configured 1700000000000 "get"
                     "/v1/api/account/wallet" (Obj []) = Normal req1
    /\ protectedRequest (fun _ => "") configured 1700000000000 "get"
                        "/v1/api/account/wallet" (Obj [("all", Bool true)])
       = Normal req2
    /\ opt_headers (req_options req1) = opt_headers (req_options req2).
Proof.
  destruct (proj2 (protectedRequest_prepares_iff_aux (fun _ => "") configured
                     1700000000000 "get" "/v1/api/account/wallet" (Obj []))
             (conj (ex_intro _ _ eq_refl) (ex_intro _ _ eq_refl)))
    as [req1 H1].
  destruct (proj2 (protectedRequest_prepares_iff_aux (fun _ => "") configured
                     1700000000000 "get" "/v1/api/account/wallet"
                     (Obj [("all", Bool true)]))
             (conj (ex_intro _ _ eq_refl) (ex_intro _ _ eq_refl)))
    as [req2 H2].
  exists req1, req2. split; [exact H1|]. split; [exact H2|].
  exact (proj1 (unsigned_parameters (fun _ => "") configured 1700000000000
                  "get" "/v1/api/account/wallet" (Obj [])
                  (Obj [("all", Bool true)]) req1 req2 eq_refl H1 H2)).
Defined.

(** X12.  The signed text has no separators, so the signature cannot tell
    where one field ends and the next begins: moving characters from the end
    of the method to the start of the path, or from the end of the path to
    the start of the payload, leaves the signature unchanged. *)
Theorem signature_ignores_field_boundaries :
  forall (secret : Value) (timestamp : Z) (method path payload moved : string),
    getSignature secret timestamp (method ++ moved) path (Str payload)
    = getSignature secret timestamp method (moved ++ path) (Str payload)
    /\ getSignature secret timestamp method (path ++ moved) (Str payload)
       = getSignature secret timestamp method path (Str (moved ++ payload)).
Proof.
  intros secret timestamp method path payload moved.
  unfold getSignature.
  destruct (Crypto.createHmac "sha256" secret) as [h|e]; cbn [cbind ToString];
    [|split; reflexivity].
  now rewrite !append_assoc.
Qed.

(** X13.  Configuration calls compose by last writer, part by part: after
    two calls the base URL is the last truthy override, the logger the last
    one supplied, and the credentials those of the last call that was not
    public-only, each falling back to what was there before.  In particular a
    public-only call made after a full one keeps the credentials of the full
    one, and repeating a call changes nothing. *)
Theorem setConfig_last_writer :
  forall (s : State)
         (server1 key1 secret1 pwd1 : Value) (logger1 : option Logger) (public1 : Value)
         (server2 key2 secret2 pwd2 : Value) (logger2 : option Logger) (public2 : Value),
    let s1 := setConfig s server1 key1 secret1 pwd1 logger1 public1 in
    let s2 := setConfig s1 server2 key2 secret2 pwd2 logger2 public2 in
    WEB_BASE s2 = (if truthy server2 then server2
                   else if truthy server1 then server1 else WEB_BASE s)
    /\ log s2 = match logger2, logger1 with
                | Some l, _ => l
                | None, Some l => l
                | None, None => log s
                end
    /\ config s2 = (if negb (truthy public2)
                    then mkCredentials key2 secret2 pwd2
                    else if negb (truthy public1)
                         then mkCredentials key1 secret1 pwd1
                         else config s)
    /\ setConfig s1 server1 key1 secret1 pwd1 logger1 public1 = s1.
Proof.
  intros s server1 key1 secret1 pwd1 logger1 public1
         server2 key2 secret2 pwd2 logger2 public2 s1 s2.
  subst s1 s2. unfold setConfig. destruct s as [base creds lg].
  destruct (truthy server1), (truthy server2), logger1, logger2,
    (truthy public1), (truthy public2); cbn; repeat split.
Qed.

(** X14.  Public-only configuration does not disable the private
    operations: from the initial state, after a public-only call that keeps
    the base URL, every private request is still prepared, with an empty
    [AccessKey], an empty [SecretKey] and a signature under the empty key,
    whatever credentials the call was given. *)
Theorem public_only_still_signs :
  forall (getParamsString : Value -> string) (now : Z)
         (apiServer apiKey secretKey tradePwd : Value) (logger : option Logger)
         (publicOnly : Value) (type path : string) (data : Value),
    truthy publicOnly = true ->
    truthy apiServer = false ->
    let st := setConfig initial_state apiServer apiKey secretKey tradePwd
                        logger publicOnly in
    exists req,
      protectedRequest getParamsString st now type path data = Normal req
      /\ opt_url (req_options req) = "https://api.fameex.com" ++ path
      /\ lookup "AccessKey" (opt_headers (req_options req)) = Some (Str "")
      /\ lookup "SecretKey" (opt_headers (req_options req)) = Some (Str "")
      /\ lookup "Signature" (opt_headers (req_options req))
         = Some (Str (sign_spec "" now (toUpperCase type) path
                                (if String.eqb type "post"
                                 then json_text data else ""))).
Proof.
  intros getParamsString now apiServer apiKey secretKey tradePwd logger
         publicOnly type path data Hp Ha st.
  assert (Hbase : WEB_BASE st = Str "https://api.fameex.com")
    by (subst st; unfold setConfig; rewrite Ha, Hp; now destruct logger).
  assert (Hcfg : config st = mkCredentials (Str "") (Str "") (Str ""))
    by (subst st; unfold setConfig; rewrite Ha, Hp; now destruct logger).
  assert (Hs : secret_key (config st) = Str "") by now rewrite Hcfg.
  unfold protectedRequest, url_of. rewrite Hbase. cbn [ToString cbind].
  rewrite (sign_of_input st now type path data "" Hs). cbn [cbind].
  eexists. split; [reflexivity|].
  destruct (String.eqb type "post");
    cbn [req_options opt_url opt_headers lookup String.eqb Ascii.eqb Bool.eqb];
    rewrite Hcfg; repeat split.
Qed.

(** A configuration to which X14 applies: a public-only call that brings
    credentials all the same. *)
Lemma public_only_still_signs_witness :
  exists req,
    protectedRequest (fun _ => "")
      (setConfig initial_state Undefined (Str "key") (Str "secret") (Str "pwd")
                 (Some logger) (Bool true))
      1700000000000 "get" "/v1/api/account/wallet" (Obj []) = Normal req
    /\ lookup "SecretKey" (opt_headers (req_options req)) = Some (Str "").
Proof.
  destruct (public_only_still_signs (fun _ => "") 1700000000000 Undefined
              (Str "key") (Str "secret") (Str "pwd") (Some logger) (Bool true)
              "get" "/v1/api/account/wallet" (Obj []) eq_refl eq_refl)
    as [req [H1 [_ [_ [H2 _]]]]].
  exists req. split; [exact H1 | exact H2].
Defined.

(* ================================================================== *)
(** ** Properties of the operations *)
(* ================================================================== *)

(** A [post] request for parameters held in an object: the body is the JSON
    text of the object, and that text is what is signed. *)
Lemma protectedRequest_post_object
      (getParamsString : Value -> string) (st : State) (now : Z)
      (path : string) (ps : list (string * Value)) (req : PreparedRequest) :
  protectedRequest getParamsString st now "post" path (Obj ps) = Normal req ->
  exists text,
    JSON_stringify (Obj ps) = Some text
    /\ sent_body (req_options req) = Some text
    /\ req_signed req = Some (signatureInput st now "post" path (Str text))
    /\ opt_method (req_options req) = "post"
    /\ opt_params (req_options req) = None.
Proof.
  intro H.
  destruct (proj1 (protectedRequest_prepares_iff_aux getParamsString st now
                     "post" path (Obj ps)) (ex_intro _ req H))
    as [[base Hb] [secret Hs]].
  revert H. unfold protectedRequest, url_of. rewrite Hb. cbn [cbind].
  rewrite (sign_of_input st now "post" path (Obj ps) secret Hs). cbn [cbind].
  intro H. injection H as <-.
  destruct (JSON_stringify (Obj ps)) as [text|] eqn:Ej; [|discriminate Ej].
  exists text. unfold sent_body, json_value. rewrite Ej.
  cbn [String.eqb Ascii.eqb Bool.eqb req_options req_signed opt_data
       opt_method opt_params].
  repeat split.
Qed.

(** X15.  [addOrder] always sends [symbol], [side], [orderType] and
    [amount], in that order, and each of [clientOid], [price],
    [triggerPrice] and [backRatio] exactly when its argument is truthy: an
    option given as [undefined], [null], the empty string, [false] or the
    number 0 is left out.  The body that leaves is the JSON text of that
    object, and it is the text that is signed. *)
Theorem addOrder_sends_truthy_options :
  forall (getParamsString : Value -> string) (st : State) (now : Z)
         (symbol side orderType amount clientOid price triggerPrice backRatio : Value)
         (req : PreparedRequest),
    addOrder getParamsString st now symbol side orderType amount
             clientOid price triggerPrice backRatio = Normal (Pending req) ->
    let data := order_data symbol side orderType amount
                           clientOid price triggerPrice backRatio in
    let optional (k : string) (v : Value) :=
      if truthy v then [(k, v)] else [] in
    data = Obj ([("symbol", symbol); ("side", side);
                 ("orderType", orderType); ("amount", amount)]
                ++ optional "clientOid" clientOid ++ optional "price" price
                ++ optional "triggerPrice" triggerPrice
                ++ optional "backRatio" backRatio)%list
    /\ field data "price" = (if truthy price then price else Undefined)
    /\ exists text,
        JSON_stringify data = Some text
        /\ sent_body (req_options req) = Some text
        /\ req_signed req
           = Some (signatureInput st now "post" "/v1/api/spot/orders" (Str text)).
Proof.
  intros getParamsString st now symbol side orderType amount
         clientOid price triggerPrice backRatio req H data optional.
  assert (Hdata : data = Obj ([("symbol", symbol); ("side", side);
                               ("orderType", orderType); ("amount", amount)]
                              ++ optional "clientOid" clientOid
                              ++ optional "price" price
                              ++ optional "triggerPrice" triggerPrice
                              ++ optional "backRatio" backRatio)%list).
  { subst data optional. unfold order_data.
    destruct (truthy clientOid), (truthy price), (truthy triggerPrice),
      (truthy backRatio); reflexivity. }
  split; [exact Hdata|]. split.
  - rewrite Hdata. subst optional. cbn beta.
    destruct (truthy clientOid), (truthy price), (truthy triggerPrice),
      (truthy backRatio); reflexivity.
  - unfold addOrder in H. fold data in H.
    destruct (protectedRequest getParamsString st now "post"
                (versioning_v1 ++ "/api/spot/orders") data) as [r|e] eqn:Er;
      cbn [cbind] in H; [|discriminate].
    injection H as ->. rewrite Hdata in Er.
    destruct (protectedRequest_post_object _ _ _ _ _ _ Er)
      as [text [Hj [Hb [Hsig _]]]].
    exists text. rewrite Hdata. auto.
Qed.

(** A call to which X15 applies: a limit order with a price and nothing
    else. *)
Lemma addOrder_sends_truthy_options_witness :
  exists req,
    addOrder (fun _ => "") configured 1700000000000
             (Str "BTC-USDT") (Num 1) (Num 1) (Str "2")
             Undefined (Str "30000") (Num 0) (Str "") = Normal (Pending req)
    /\ order_data (Str "BTC-USDT") (Num 1) (Num 1) (Str "2")
                  Undefined (Str "30000") (Num 0) (Str "")
       = Obj [("symbol", Str "BTC-USDT"); ("side", Num 1); ("orderType", Num 1);
              ("amount", Str "2"); ("price", Str "30000")].
Proof.
  destruct (proj2 (protectedRequest_prepares_iff_aux (fun _ => "") configured
                     1700000000000 "post" "/v1/api/spot/orders"
                     (order_data (Str "BTC-USDT") (Num 1) (Num 1) (Str "2")
                                 Undefined (Str "30000") (Num 0) (Str "")))
             (conj (ex_intro _ _ eq_refl) (ex_intro _ _ eq_refl)))
    as [req Hreq].
  assert (H : addOrder (fun _ => "") configured 1700000000000
                (Str "BTC-USDT") (Num 1) (Num 1) (Str "2")
                Undefined (Str "30000") (Num 0) (Str "") = Normal (Pending req)).
  { unfold addOrder.
    change (versioning_v1 ++ "/api/spot/orders") with "/v1/api/spot/orders".
    now rewrite Hreq. }
  exists req. split; [exact H|].
  exact (proj1 (addOrder_sends_truthy_options (fun _ => "") configured
                  1700000000000 (Str "BTC-USDT") (Num 1) (Num 1) (Str "2")
                  Undefined (Str "30000") (Num 0) (Str "") req H)).
Defined.

(** X16.  [getOrderDetails], an [async] function, never throws: where
    [cancelOrder] with the same arguments throws (the request cannot be
    prepared), it returns a promise already rejected with that exception; and
    where [cancelOrder] makes a request, it makes one with the same body and
    the same parameters description, to the [orderdetail] path instead of
    the [cancel_orders] one. *)
Theorem getOrderDetails_never_throws :
  forall (getParamsString : Value -> string) (st : State) (now : Z)
         (symbol orderId clientOid : Value),
    (exists result,
        getOrderDetails getParamsString st now symbol orderId clientOid
        = Normal result)
    /\ match cancelOrder getParamsString st now symbol orderId clientOid with
       | Throw e =>
           getOrderDetails getParamsString st now symbol orderId clientOid
           = Normal (RejectedEarly e)
       | Normal (RejectedEarly _) => False
       | Normal (Pending cancel) =>
           exists details base,
             getOrderDetails getParamsString st now symbol orderId clientOid
             = Normal (Pending details)
             /\ opt_data (req_options details) = opt_data (req_options cancel)
             /\ req_description details = req_description cancel
             /\ ToString (WEB_BASE st) = Normal base
             /\ opt_url (req_options details)
                = base ++ "/v1/api/spot/orderdetail"
             /\ opt_url (req_options cancel)
                = base ++ "/v1/api/spot/cancel_orders"
       end.
Proof.
  intros getParamsString st now symbol orderId clientOid.
  unfold getOrderDetails, cancelOrder.
  change (versioning_v1 ++ "/api/spot/orderdetail")
    with "/v1/api/spot/orderdetail".
  change (versioning_v1 ++ "/api/spot/cancel_orders")
    with "/v1/api/spot/cancel_orders".
  set (data := order_reference symbol orderId clientOid).
  split.
  - destruct (protectedRequest getParamsString st now "post"
                "/v1/api/spot/orderdetail" data); eauto.
  - unfold protectedRequest, url_of.
    destruct (ToString (WEB_BASE st)) as [base|e]; cbn [cbind]; [|reflexivity].
    destruct (secret_key (config st)) as [| |b|n|s|items ps|ps|n m ps|f] eqn:Ek;
      try (unfold sign, signatureInput, getSignature;
           cbn [sig_secret sig_timestamp sig_method sig_path sig_payload];
           rewrite Ek;
           cbn [Crypto.createHmac String.eqb Ascii.eqb Bool.eqb negb cbind];
           reflexivity).
    rewrite (sign_of_input st now "post" "/v1/api/spot/cancel_orders" data s Ek),
            (sign_of_input st now "post" "/v1/api/spot/orderdetail" data s Ek).
    cbn [cbind String.eqb Ascii.eqb Bool.eqb].
    eexists. exists base. repeat split.
Qed.

(** X17.  [cancelAllOrders] sends a list of ids only when it has a truthy
    [length]: an array is sent exactly when it is not empty, and
    [undefined] and [null] are never sent.  With no list to send the body
    names the symbol alone. *)
Theorem cancelAllOrders_sends_nonempty_lists :
  forall (getParamsString : Value -> string) (st : State) (now : Z)
         (symbol orderIds clientOids : Value),
    let data := orders_reference symbol orderIds clientOids in
    let optional (k : string) (v : Value) :=
      if truthy (length_opt v) then [(k, v)] else [] in
    data = Obj ([("symbol", symbol)] ++ optional "orderIds" orderIds
                ++ optional "clientOids" clientOids)%list
    /\ (forall items ps,
           truthy (length_opt (Arr items ps))
           = match items with [] => false | _ => true end)
    /\ truthy (length_opt Undefined) = false
    /\ truthy (length_opt Null) = false
    /\ (truthy (length_opt orderIds) = false ->
        truthy (length_opt clientOids) = false ->
        data = Obj [("symbol", symbol)])
    /\ (forall req,
           cancelAllOrders getParamsString st now symbol orderIds clientOids
           = Normal (Pending req) ->
           exists text,
             JSON_stringify data = Some text
             /\ sent_body (req_options req) = Some text
             /\ req_signed req
                = Some (signatureInput st now "post"
                                       "/v1/api/spot/cancel_orders_all" (Str text))).
Proof.
  intros getParamsString st now symbol orderIds clientOids data optional.
  assert (Hdata : data = Obj ([("symbol", symbol)] ++ optional "orderIds" orderIds
                              ++ optional "clientOids" clientOids)%list).
  { subst data optional. unfold orders_reference.
    destruct (truthy (length_opt orderIds)), (truthy (length_opt clientOids));
      reflexivity. }
  split; [exact Hdata|].
  split; [|split; [reflexivity|split; [reflexivity|split]]].
  - intros items ps. destruct items; [reflexivity|].
    cbn [length_opt truthy List.length]. now destruct (Z.of_nat _ =? 0) eqn:E;
      [apply Z.eqb_eq in E; lia|].
  - intros H1 H2. rewrite Hdata. subst optional. cbn beta. now rewrite H1, H2.
  - intros req H. unfold cancelAllOrders in H. fold data in H.
    destruct (protectedRequest getParamsString st now "post"
                (versioning_v1 ++ "/api/spot/cancel_orders_all") data)
      as [r|e] eqn:Er; cbn [cbind] in H; [|discriminate].
    injection H as ->. rewrite Hdata in Er.
    destruct (protectedRequest_post_object _ _ _ _ _ _ Er)
      as [text [Hj [Hb [Hsig _]]]].
    exists text. rewrite Hdata. auto.
Qed.

(** X18.  The public listing needs no credentials and sends none: whenever
    the base URL converts to a string [currenciesPublic] prepares a [get]
    request with no header at all and nothing signed, even in a state whose
    secret key is not a string, where the private listing [currencies]
    throws. *)
Theorem currenciesPublic_needs_no_credentials :
  forall (getParamsString : Value -> string) (st : State) (now : Z)
         (base : string),
    ToString (WEB_BASE st) = Normal base ->
    (exists req,
        currenciesPublic getParamsString st = Normal (Pending req)
        /\ opt_url (req_options req) = base ++ "/v2/public/assets"
        /\ opt_method (req_options req) = "get"
        /\ opt_headers (req_options req) = []
        /\ req_signed req = None)
    /\ ((forall secret, secret_key (config st) <> Str secret) ->
        exists e, currencies getParamsString st now = Throw e).
Proof.
  intros getParamsString st now base Hb. split.
  - unfold currenciesPublic, publicRequest, url_of. rewrite Hb. cbn [cbind].
    eexists. repeat split.
  - intro Hno. unfold currencies, protectedRequest, url_of.
    rewrite Hb. cbn [cbind].
    destruct (sign_refuses st now "get" (versioning_v1 ++ "/common/currencys")
                (json_value (Obj [])) Hno) as [e He].
    rewrite He. cbn [cbind]. eauto.
Qed.

(** A state to which X18 applies: a module configured without a secret
    key. *)
Lemma currenciesPublic_needs_no_credentials_witness :
  exists e,
    currencies (fun _ => "")
      (setConfig initial_state Undefined Undefined Undefined Undefined
                 (Some logger) Undefined) 1700000000000 = Throw e.
Proof.
  exact (proj2 (currenciesPublic_needs_no_credentials (fun _ => "")
                  (setConfig initial_state Undefined Undefined Undefined
                             Undefined (Some logger) Undefined)
                  1700000000000 "https://api.fameex.com" eq_refl)
               ltac:(discriminate)).
Defined.

(** X19.  The two private reads, [getBalances] and [currencies], sign the
    time and the path only: whenever one of them makes a request, it is a
    [get] with the empty object as [params] and no body, and its
    [Signature] is the HMAC-SHA256 under the stored secret of the timestamp,
    ["GET"] and the path of the operation, with an empty payload. *)
Theorem private_reads_sign_time_and_path :
  forall (getParamsString : Value -> string) (st : State) (now : Z)
         (req : PreparedRequest),
    getBalances getParamsString st now = Normal (Pending req)
    \/ currencies getParamsString st now = Normal (Pending req) ->
    exists (secret path : string),
      secret_key (config st) = Str secret
      /\ (path = "/v1/api/account/wallet" \/ path = "/v1/common/currencys")
      /\ opt_method (req_options req) = "get"
      /\ opt_params (req_options req) = Some (Obj [])
      /\ opt_data (req_options req) = None
      /\ lookup "Signature" (opt_headers (req_options req))
         = Some (Str (sign_spec secret now "GET" path "")).
Proof.
  intros getParamsString st now req H.
  assert (Hgen : forall path,
             cbind (protectedRequest getParamsString st now "get" path (Obj []))
                   (fun r => Normal (Pending r)) = Normal (Pending req) ->
             exists secret,
               secret_key (config st) = Str secret
               /\ opt_method (req_options req) = "get"
               /\ opt_params (req_options req) = Some (Obj [])
               /\ opt_data (req_options req) = None
               /\ lookup "Signature" (opt_headers (req_options req))
                  = Some (Str (sign_spec secret now "GET" path ""))).
  { intros path Hp.
    destruct (protectedRequest getParamsString st now "get" path (Obj []))
      as [r|e] eqn:Er; cbn [cbind] in Hp; [|discriminate].
    injection Hp as ->.
    destruct (proj1 (protectedRequest_prepares_iff_aux getParamsString st now
                       "get" path (Obj [])) (ex_intro _ req Er))
      as [[base Hb] [secret Hs]].
    exists secret. split; [exact Hs|].
    revert Er. unfold protectedRequest, url_of. rewrite Hb. cbn [cbind].
    rewrite (sign_of_input st now "get" path (Obj []) secret Hs). cbn [cbind].
    intro Er. injection Er as <-. repeat split. }
  destruct H as [H | H].
  - destruct (Hgen "/v1/api/account/wallet" H) as [secret Hs].
    exists secret, "/v1/api/account/wallet". tauto.
  - destruct (Hgen "/v1/common/currencys" H) as [secret Hs].
    exists secret, "/v1/common/currencys". tauto.
Qed.

(** A call to which X19 applies: the wallet read of the configured
    module. *)
Lemma private_reads_sign_time_and_path_witness :
  exists req,
    getBalances (fun _ => "") configured 1700000000000 = Normal (Pending req)
    /\ opt_data (req_options req) = None.
Proof.
  destruct (proj2 (protectedRequest_prepares_iff_aux (fun _ => "") configured
                     1700000000000 "get" "/v1/api/account/wallet" (Obj []))
             (conj (ex_intro _ _ eq_refl) (ex_intro _ _ eq_refl)))
    as [req Hreq].
  assert (H : getBalances (fun _ => "") configured 1700000000000
              = Normal (Pending req)).
  { unfold getBalances.
    change (versioning_v1 ++ "/api/account/wallet") with "/v1/api/account/wallet".
    now rewrite Hreq. }
  exists req. split; [exact H|].
  destruct (private_reads_sign_time_and_path (fun _ => "") configured
              1700000000000 req (or_introl H))
    as [secret [path [_ [_ [_ [_ [Hd _]]]]]]].
  exact Hd.
Defined.
